(** * scimcp: the SCIM client and its tool dispatcher

    A shallow embedding of [scimcp/scim_client.py] and [scimcp/mcp_server.py].
    Python [str] is [string], Python [int] is [Z], a [dict] literal is an
    association list in insertion order, [os.environ] is a [gmap], and the
    effects of the code (HTTP requests, draws from [random], exceptions) are
    threaded through one state-and-exception monad over a [World]. *)

From Stdlib Require Import ZArith List String Ascii Bool Lia.
From stdpp Require Import base strings pretty gmap.

Local Open Scope Z_scope.

(* Let [simpl] compute the append of a string that starts with a character. *)
#[local] Arguments String.append !s1 s2 / : simpl nomatch.

(** ** Python strings *)

Module PyStr.

(** [s.lstrip(c)] for a one-character set: drops every leading [c]. *)
Fixpoint lstrip (c : ascii) (s : string) : string :=
  match s with
  | EmptyString => EmptyString
  | String a s' => if Ascii.eqb a c then lstrip c s' else s
  end.

(** [s.rstrip(c)] for a one-character set: drops every trailing [c]. *)
Fixpoint rstrip (c : ascii) (s : string) : string :=
  match s with
  | EmptyString => EmptyString
  | String a s' =>
      match rstrip c s' with
      | EmptyString => if Ascii.eqb a c then EmptyString else String a EmptyString
      | r => String a r
      end
  end.

(** [c * n] *)
Fixpoint replicate (n : nat) (c : ascii) : string :=
  match n with
  | O => EmptyString
  | S n' => String c (replicate n' c)
  end.

(** [s.startswith(c)] and [s.endswith(c)] for a single character. *)
Definition startswith (s : string) (c : ascii) : bool :=
  match s with
  | EmptyString => false
  | String a _ => Ascii.eqb a c
  end.

Fixpoint endswith (s : string) (c : ascii) : bool :=
  match s with
  | EmptyString => false
  | String a EmptyString => Ascii.eqb a c
  | String _ s' => endswith s' c
  end.

(** [sep.join(parts)] *)
Fixpoint join (sep : string) (parts : list string) : string :=
  match parts with
  | [] => EmptyString
  | [p] => p
  | p :: rest => p +:+ sep +:+ join sep rest
  end.

(** [''.join(chars)] for a list of one-character strings. *)
Definition of_chars (chars : list ascii) : string := string_of_list_ascii chars.

(** [c in s] *)
Fixpoint contains (c : ascii) (s : string) : bool :=
  match s with
  | EmptyString => false
  | String a s' => Ascii.eqb a c || contains c s'
  end.

(** [pat in s] for a string [pat] *)
Fixpoint occurs (pat s : string) : bool :=
  String.prefix pat s
  || match s with
     | EmptyString => false
     | String _ s' => occurs pat s'
     end.

(** [any(p(c) for c in s)] and [all(p(c) for c in s)] *)
Fixpoint any (p : ascii -> bool) (s : string) : bool :=
  match s with
  | EmptyString => false
  | String a s' => p a || any p s'
  end.

Fixpoint all (p : ascii -> bool) (s : string) : bool :=
  match s with
  | EmptyString => true
  | String a s' => p a && all p s'
  end.

Definition in_range (lo hi : N) (c : ascii) : bool :=
  let n := N_of_ascii c in ((lo <=? n) && (n <=? hi))%N.

(** ASCII classes: [c.isdigit()], [c.isalpha()], [c.isalnum()]. *)
Definition isdigit (c : ascii) : bool := in_range 48 57 c.
Definition isupper (c : ascii) : bool := in_range 65 90 c.
Definition islower (c : ascii) : bool := in_range 97 122 c.
Definition isalpha (c : ascii) : bool := isupper c || islower c.
Definition isalnum (c : ascii) : bool := isalpha c || isdigit c.

(** [s.lower()] on ASCII. *)
Definition lower_char (c : ascii) : ascii :=
  if isupper c then ascii_of_N (N_of_ascii c + 32) else c.

Fixpoint lower (s : string) : string :=
  match s with
  | EmptyString => EmptyString
  | String a s' => String (lower_char a) (lower s')
  end.

(** The one-character string holding the double quote (code 34). *)
Definition dquote : string := String (ascii_of_nat 34) EmptyString.

(** [str(n)] for an [int]. *)
Definition of_int (n : Z) : string := pretty n.

(** [string.ascii_letters + string.digits] *)
Definition ascii_letters : string :=
  "abcdefghijklmnopqrstuvwxyzABCDEFGHIJKLMNOPQRSTUVWXYZ".
Definition digits : string := "0123456789".

End PyStr.

(** ** JSON documents

    What [json=payload] serialises and what [response.json()] returns.  An
    object keeps its keys in insertion order, as a Python [dict] does. *)

#[warnings="-register-all"]
Inductive json : Type :=
| JNull
| JBool (b : bool)
| JInt (n : Z)
| JStr (s : string)
| JList (items : list json)
| JObj (fields : list (string * json)).

(** [d.get(k)] on an insertion-ordered dict. *)
Fixpoint dict_get {V : Type} (k : string) (d : list (string * V)) : option V :=
  match d with
  | [] => None
  | (k', v) :: rest => if String.eqb k' k then Some v else dict_get k rest
  end.

Definition json_get (k : string) (j : json) : option json :=
  match j with
  | JObj fields => dict_get k fields
  | _ => None
  end.

(** ** Exceptions *)

Inductive exn : Type :=
| ValueError (msg : string)
| KeyError (key : string)
| IndexError (msg : string)
| AttributeError (msg : string)
| JSONDecodeError (msg : string)
| RequestException (msg : string).

(** [str(e)]: a [KeyError] prints the [repr] of the missing key. *)
Definition str_exn (e : exn) : string :=
  match e with
  | ValueError msg => msg
  | KeyError key => "'" +:+ key +:+ "'"
  | IndexError msg => msg
  | AttributeError msg => msg
  | JSONDecodeError msg => msg
  | RequestException msg => msg
  end.

Inductive outcome (A : Type) : Type :=
| Return (a : A)
| Raise (e : exn).
Arguments Return {A} a.
Arguments Raise {A} e.

(** ** The HTTP surface: what [requests.request] is given and hands back *)

Record Request : Type := {
  method : string;
  url : string;
  req_headers : list (string * string);
  req_json : option json;
  timeout : Z
}.

(** A [requests.Response]: [json_body] is what [response.json()] yields,
    [None] when that call raises because the body does not decode. *)
Record Response : Type := {
  status_code : Z;
  resp_headers : list (string * string);
  text : string;
  json_body : option json
}.

(** ** The world outside the program *)

Record World : Type := {
  environ : gmap string string;
  (** the transport, given the requests issued before this one *)
  http : list Request -> Request -> exn + Response;
  (** [json.dumps(_, indent=2)], the serialiser of the standard library *)
  json_dumps : json -> string;
  (** the random source: its n-th raw draw *)
  entropy : nat -> nat;
  drawn : nat;
  (** every request handed to the transport so far, oldest first *)
  sent : list Request;
  (** every line given to [logger.debug] so far, oldest first *)
  logged : list string
}.

Definition M (A : Type) : Type := World -> outcome A * World.

Definition ret {A : Type} (a : A) : M A := fun w => (Return a, w).

Definition raise {A : Type} (e : exn) : M A := fun w => (Raise e, w).

Definition bind {A B : Type} (m : M A) (k : A -> M B) : M B :=
  fun w =>
    match m w with
    | (Return a, w') => k a w'
    | (Raise e, w') => (Raise e, w')
    end.

Notation "x <- m ;; k" := (bind m (fun x => k))
  (at level 100, m at next level, right associativity).

(** [try: m  except Exception as e: h(e)] *)
Definition try_except {A : Type} (m : M A) (h : exn -> M A) : M A :=
  fun w =>
    match m w with
    | (Return a, w') => (Return a, w')
    | (Raise e, w') => h e w'
    end.

(** [try: m  except json.JSONDecodeError: h]; any other exception goes on. *)
Definition try_except_JSONDecodeError {A : Type} (m : M A) (h : M A) : M A :=
  fun w =>
    match m w with
    | (Return a, w') => (Return a, w')
    | (Raise (JSONDecodeError _), w') => h w'
    | (Raise e, w') => (Raise e, w')
    end.

(** [response.json()] *)
Definition response_json (response : Response) : M json :=
  match json_body response with
  | Some body => ret body
  | None => raise (JSONDecodeError "Expecting value")
  end.

(** [logger.debug(line)] *)
Definition logger_debug (line : string) : M unit :=
  fun w =>
    (Return tt,
     {| environ := environ w; http := http w; json_dumps := json_dumps w;
        entropy := entropy w; drawn := drawn w; sent := sent w;
        logged := logged w ++ [line] |}).

(** [json.dumps(value, indent=2)] *)
Definition py_json_dumps (value : json) : M string :=
  fun w => (Return (json_dumps w value), w).

(** [dict(headers)] as a JSON object. *)
Definition headers_json (headers : list (string * string)) : json :=
  JObj (map (fun kv => (fst kv, JStr (snd kv))) headers).

(** Truthiness of an optional payload: [None] and the empty dict are false. *)
Definition payload_truthy (payload : option json) : bool :=
  match payload with
  | None | Some JNull | Some (JObj []) | Some (JList []) | Some (JStr "")
  | Some (JBool false) | Some (JInt 0) => false
  | Some _ => true
  end.

(** [os.getenv(name)] *)
Definition os_getenv (name : string) : M (option string) :=
  fun w => (Return (environ w !! name), w).

(** [requests.request(...)]: the request leaves the program, and the transport
    answers with a response or fails with an exception. *)
Definition requests_request (req : Request) : M Response :=
  fun w =>
    let w' := {| environ := environ w; http := http w;
                 json_dumps := json_dumps w; entropy := entropy w;
                 drawn := drawn w; sent := sent w ++ [req];
                 logged := logged w |} in
    match http w (sent w) req with
    | inl e => (Raise e, w')
    | inr response => (Return response, w')
    end.

(** The core of [random]: an index below [n], consuming one raw draw. *)
Definition randbelow (n : nat) : M nat :=
  fun w =>
    (Return (entropy w (drawn w) mod n)%nat,
     {| environ := environ w; http := http w; json_dumps := json_dumps w;
        entropy := entropy w; drawn := S (drawn w); sent := sent w;
        logged := logged w |}).

(** [random.choice(seq)] *)
Definition random_choice {A : Type} (seq : list A) : M A :=
  i <- randbelow (length seq) ;;
  match seq !! i with
  | Some x => ret x
  | None => raise (IndexError "Cannot choose from an empty sequence")
  end.

(** [random.choices(population, k=k)] *)
Fixpoint random_choices {A : Type} (population : list A) (k : nat) : M (list A) :=
  match k with
  | O => ret []
  | S k' =>
      x <- random_choice population ;;
      xs <- random_choices population k' ;;
      ret (x :: xs)
  end.

(** [random.randint(a, b)] *)
Definition random_randint (a b : Z) : M Z :=
  i <- randbelow (Z.to_nat (b - a + 1)) ;;
  ret (a + Z.of_nat i).

(** Truthiness of an [Optional[str]]: [Some s] for a non-empty [s]. *)
Definition truthy (o : option string) : option string :=
  match o with
  | Some s => if String.eqb s "" then None else Some s
  | None => None
  end.

(** A value of the [params] dict: an [int] or a [str]. *)
Inductive scalar : Type :=
| SInt (n : Z)
| SStr (s : string).

(** [f"{v}"] *)
Definition format_scalar (v : scalar) : string :=
  match v with
  | SInt n => PyStr.of_int n
  | SStr s => s
  end.

(** [a or b] *)
Definition py_or (a b : option string) : option string :=
  match truthy a with
  | Some _ => a
  | None => b
  end.

(** ** scim_client.py *)

Module SCIMClient.

Record t : Type := {
  base_url : string;
  token : string;
  headers : list (string * string);
  debug : bool
}.

(** [SCIMClient.__init__] *)
Definition __init__ (base_url token : option string) : M t :=
  env_base_url <- os_getenv "SCIM_BASE_URL" ;;
  let self_base_url := py_or base_url env_base_url in
  env_token <- os_getenv "SCIM_TOKEN" ;;
  let self_token := py_or token env_token in
  match truthy self_base_url with
  | None =>
      raise (ValueError
        "SCIM base URL must be provided via parameter or SCIM_BASE_URL environment variable")
  | Some the_base_url =>
      match truthy self_token with
      | None =>
          raise (ValueError
            "SCIM token must be provided via parameter or SCIM_TOKEN environment variable")
      | Some the_token =>
          env_debug <- os_getenv "DEBUG" ;;
          ret {| base_url := PyStr.rstrip "/" the_base_url;
                 token := the_token;
                 headers :=
                   [("Authorization", "Bearer " +:+ the_token);
                    ("Content-Type", "application/scim+json");
                    ("Accept", "application/scim+json")];
                 debug :=
                   let flag := PyStr.lower (default "false" env_debug) in
                   String.eqb flag "true" || String.eqb flag "1"
                   || String.eqb flag "yes" |}
      end
  end.

(** [SCIMClient._log_request_response] *)
Definition _log_request_response (self : t) (method url : string)
    (payload : option json) (response : Response) : M unit :=
  if negb (debug self) then ret tt
  else
    _ <- logger_debug "=== SCIM REQUEST ===" ;;
    _ <- logger_debug ("Method: " +:+ method) ;;
    _ <- logger_debug ("URL: " +:+ url) ;;
    dumped_headers <- py_json_dumps (headers_json (headers self)) ;;
    _ <- logger_debug ("Headers: " +:+ dumped_headers) ;;
    _ <- (if payload_truthy payload then
            dumped_payload <- py_json_dumps (default JNull payload) ;;
            logger_debug ("Payload: " +:+ dumped_payload)
          else ret tt) ;;
    _ <- logger_debug "=== SCIM RESPONSE ===" ;;
    _ <- logger_debug ("Status Code: " +:+ PyStr.of_int (status_code response)) ;;
    dumped_headers <- py_json_dumps (headers_json (resp_headers response)) ;;
    _ <- logger_debug ("Response Headers: " +:+ dumped_headers) ;;
    try_except_JSONDecodeError
      (response_json <- response_json response ;;
       dumped_body <- py_json_dumps response_json ;;
       logger_debug ("Response Body: " +:+ dumped_body))
      (logger_debug ("Response Body (raw): " +:+ text response)).

(** [SCIMClient._make_request] *)
Definition _make_request (self : t) (method endpoint : string)
    (payload : option json) : M Response :=
  let url := base_url self +:+ "/" +:+ PyStr.lstrip "/" endpoint in
  response <- requests_request
    {| method := method; url := url; req_headers := headers self;
       req_json := payload; timeout := 30 |} ;;
  _ <- _log_request_response self method url payload response ;;
  ret response.

(** The [params] dict that [get_users] and [get_groups] build alike. *)
Definition list_params (start_index count : Z) (filter_expr : option string)
    : list (string * scalar) :=
  let params :=
    [("startIndex", SInt start_index);
     ("count", SInt (Z.min count 100))] in
  match truthy filter_expr with
  | Some f => params ++ [("filter", SStr f)]
  | None => params
  end.

(** ["&".join([f"{k}={v}" for k, v in params.items()])] *)
Definition query_string (params : list (string * scalar)) : string :=
  PyStr.join "&" (map (fun kv => fst kv +:+ "=" +:+ format_scalar (snd kv)) params).

(** The endpoint of a list operation: the query string is added [if params]. *)
Definition list_endpoint (resource : string) (params : list (string * scalar))
    : string :=
  match params with
  | [] => resource
  | _ => resource +:+ "?" +:+ query_string params
  end.

(** [SCIMClient.get_users] *)
Definition get_users (self : t) (start_index count : Z)
    (filter_expr : option string) : M Response :=
  let params := list_params start_index count filter_expr in
  let endpoint := list_endpoint "Users" params in
  _make_request self "GET" endpoint None.

(** [SCIMClient.get_user] *)
Definition get_user (self : t) (user_id : string) : M Response :=
  _make_request self "GET" ("Users/" +:+ user_id) None.

(** [SCIMClient._generate_external_id] *)
Definition _generate_external_id (self : t) : M string :=
  chars <- random_choices
    (list_ascii_of_string (PyStr.ascii_letters +:+ PyStr.digits)) 12 ;;
  ret (PyStr.of_chars chars).

Definition adjectives : list string :=
  ["Quick"; "Happy"; "Bright"; "Smart"; "Cool"; "Fast"; "Safe"; "Good";
   "Blue"; "Green"; "Red"; "Gold"; "Silver"; "Purple"; "Orange"; "Pink";
   "Bold"; "Calm"; "Warm"; "Fresh"; "Clean"; "Sweet"; "Sharp"; "Smooth";
   "Strong"; "Light"; "Dark"; "Soft"; "Hard"; "Tall"; "Short"; "Wide";
   "Deep"; "High"; "Low"; "Rich"; "Pure"; "Fine"; "Rare"; "New"].

Definition nouns : list string :=
  ["Cat"; "Dog"; "Bird"; "Fish"; "Star"; "Moon"; "Sun"; "Tree";
   "Lion"; "Tiger"; "Bear"; "Wolf"; "Fox"; "Hawk"; "Eagle"; "Dove";
   "Rose"; "Lily"; "Oak"; "Pine"; "River"; "Lake"; "Hill"; "Rock";
   "Fire"; "Wind"; "Rain"; "Snow"; "Cloud"; "Storm"; "Wave"; "Ocean";
   "House"; "Tower"; "Bridge"; "Castle"; "Garden"; "Forest"; "Valley";
   "Mountain"].

(** [SCIMClient._generate_easy_password] *)
Definition _generate_easy_password (self : t) : M string :=
  adjective <- random_choice adjectives ;;
  noun <- random_choice nouns ;;
  number <- random_randint 100000 999999 ;;
  ret (adjective +:+ noun +:+ PyStr.of_int number +:+ "!").

Definition user_payload (email firstName lastName externalId password : string)
    : json :=
  JObj
    [("schemas", JList [JStr "urn:ietf:params:scim:schemas:core:2.0:User"]);
     ("userName", JStr email);
     ("externalId", JStr externalId);
     ("name", JObj [("givenName", JStr firstName);
                    ("familyName", JStr lastName)]);
     ("emails", JList [JObj [("value", JStr email); ("primary", JBool true)]]);
     ("password", JStr password);
     ("active", JBool true)].

(** [SCIMClient.create_user] *)
Definition create_user (self : t) (email firstName lastName : string)
    (externalId password : option string) : M Response :=
  externalId <-
    match truthy externalId with
    | None => _generate_external_id self
    | Some e => ret e
    end ;;
  password <-
    match truthy password with
    | None => _generate_easy_password self
    | Some p => ret p
    end ;;
  let user_data := user_payload email firstName lastName externalId password in
  _make_request self "POST" "Users" (Some user_data).

(** [SCIMClient.update_user] *)
Definition update_user (self : t) (user_id : string) (user_data : json)
    : M Response :=
  _make_request self "PUT" ("Users/" +:+ user_id) (Some user_data).

(** [SCIMClient.delete_user] *)
Definition delete_user (self : t) (user_id : string) : M Response :=
  _make_request self "DELETE" ("Users/" +:+ user_id) None.

(** [SCIMClient.get_groups] *)
Definition get_groups (self : t) (start_index count : Z)
    (filter_expr : option string) : M Response :=
  let params := list_params start_index count filter_expr in
  let endpoint := list_endpoint "Groups" params in
  _make_request self "GET" endpoint None.

(** [SCIMClient.get_group] *)
Definition get_group (self : t) (group_id : string) : M Response :=
  _make_request self "GET" ("Groups/" +:+ group_id) None.

Definition group_payload (displayName externalId : string) : json :=
  JObj
    [("schemas", JList [JStr "urn:ietf:params:scim:schemas:core:2.0:Group"]);
     ("displayName", JStr displayName);
     ("externalId", JStr externalId)].

(** [SCIMClient.create_group] *)
Definition create_group (self : t) (displayName : string)
    (externalId : option string) : M Response :=
  externalId <-
    match truthy externalId with
    | None =>
        n <- random_randint 10000000 99999999 ;;
        ret (PyStr.of_int n)
    | Some e => ret e
    end ;;
  _make_request self "POST" "Groups" (Some (group_payload displayName externalId)).

(** [SCIMClient.update_group] *)
Definition update_group (self : t) (group_id : string) (group_data : json)
    : M Response :=
  _make_request self "PUT" ("Groups/" +:+ group_id) (Some group_data).

(** [SCIMClient.delete_group] *)
Definition delete_group (self : t) (group_id : string) : M Response :=
  _make_request self "DELETE" ("Groups/" +:+ group_id) None.

(** [SCIMClient.patch_group] *)
Definition patch_group (self : t) (group_id : string)
    (patch_operations : list json) : M Response :=
  let patch_data :=
    JObj
      [("schemas", JList [JStr "urn:ietf:params:scim:api:messages:2.0:PatchOp"]);
       ("Operations", JList patch_operations)] in
  _make_request self "PATCH" ("Groups/" +:+ group_id) (Some patch_data).

(** [SCIMClient.add_members_to_group] *)
Definition add_members_to_group (self : t) (group_id : string)
    (user_ids : list string) : M Response :=
  let members := map (fun user_id => JObj [("value", JStr user_id)]) user_ids in
  let operations :=
    [JObj [("op", JStr "add"); ("path", JStr "members");
           ("value", JList members)]] in
  patch_group self group_id operations.

(** One pass of the loop body of [remove_members_from_group]. *)
Definition remove_operation (user_id : string) : json :=
  JObj [("op", JStr "remove");
        ("path", JStr ("members[value eq " +:+ PyStr.dquote +:+ user_id
                       +:+ PyStr.dquote +:+ "]"))].

(** [SCIMClient.remove_members_from_group]: the loop appends one operation
    per element of [user_ids]. *)
Definition remove_members_from_group (self : t) (group_id : string)
    (user_ids : list string) : M Response :=
  let operations :=
    fold_left (fun operations user_id => operations ++ [remove_operation user_id])
      user_ids [] in
  patch_group self group_id operations.

End SCIMClient.

(** ** mcp_server.py *)

(** The [arguments] dict of a tool call, read through the input schemas that
    [handle_list_tools] declares: each property is either absent or present
    with a value of its declared type. *)
Module Args.

Record t : Type := {
  filter : option string;
  start_index : option Z;
  count : option Z;
  user_id : option string;
  email : option string;
  first_name : option string;
  last_name : option string;
  external_id : option string;
  password : option string;
  user_data : option json;
  group_id : option string;
  display_name : option string;
  group_data : option json;
  user_ids : option (list string)
}.

(** [{}] *)
Definition empty : t :=
  {| filter := None; start_index := None; count := None; user_id := None;
     email := None; first_name := None; last_name := None;
     external_id := None; password := None; user_data := None;
     group_id := None; display_name := None; group_data := None;
     user_ids := None |}.

(** [arguments[key]], where [field] is that key's entry. *)
Definition subscript {A : Type} (key : string) (field : option A) : M A :=
  match field with
  | Some v => ret v
  | None => raise (KeyError key)
  end.

End Args.

Module SCIMMCPServer.

Record t : Type := {
  client : option SCIMClient.t
}.

(** [SCIMMCPServer.__init__] *)
Definition __init__ : t := {| client := None |}.

(** [SCIMMCPServer._process_response] *)
Definition _process_response (response : Response) : M json :=
  let result :=
    [("status_code", JInt (status_code response));
     ("success", JBool (status_code response <? 400))] in
  data <- try_except (response_json response)
            (fun _ => ret (JStr (text response))) ;;
  ret (JObj (result ++ [("data", data)])).

(** [self.client.<attr>]: an attribute of [None] cannot be taken. *)
Definition self_client (self : t) (attr : string) : M SCIMClient.t :=
  match client self with
  | Some c => ret c
  | None =>
      raise (AttributeError
        ("'NoneType' object has no attribute '" +:+ attr +:+ "'"))
  end.

(** [SCIMMCPServer._execute_tool] *)
Definition _execute_tool (self : t) (name : string) (arguments : Args.t)
    : M json :=
  if String.eqb name "scim_list_users" then
    c <- self_client self "get_users" ;;
    response <- SCIMClient.get_users c
      (default 1 (Args.start_index arguments))
      (default 100 (Args.count arguments))
      (Args.filter arguments) ;;
    _process_response response
  else if String.eqb name "scim_get_user" then
    c <- self_client self "get_user" ;;
    user_id <- Args.subscript "user_id" (Args.user_id arguments) ;;
    response <- SCIMClient.get_user c user_id ;;
    _process_response response
  else if String.eqb name "scim_create_user" then
    c <- self_client self "create_user" ;;
    email <- Args.subscript "email" (Args.email arguments) ;;
    first_name <- Args.subscript "first_name" (Args.first_name arguments) ;;
    last_name <- Args.subscript "last_name" (Args.last_name arguments) ;;
    response <- SCIMClient.create_user c email first_name last_name
      (Args.external_id arguments) (Args.password arguments) ;;
    _process_response response
  else if String.eqb name "scim_update_user" then
    c <- self_client self "update_user" ;;
    user_id <- Args.subscript "user_id" (Args.user_id arguments) ;;
    user_data <- Args.subscript "user_data" (Args.user_data arguments) ;;
    response <- SCIMClient.update_user c user_id user_data ;;
    _process_response response
  else if String.eqb name "scim_delete_user" then
    c <- self_client self "delete_user" ;;
    user_id <- Args.subscript "user_id" (Args.user_id arguments) ;;
    response <- SCIMClient.delete_user c user_id ;;
    _process_response response
  else if String.eqb name "scim_list_groups" then
    c <- self_client self "get_groups" ;;
    response <- SCIMClient.get_groups c
      (default 1 (Args.start_index arguments))
      (default 100 (Args.count arguments))
      (Args.filter arguments) ;;
    _process_response response
  else if String.eqb name "scim_get_group" then
    c <- self_client self "get_group" ;;
    group_id <- Args.subscript "group_id" (Args.group_id arguments) ;;
    response <- SCIMClient.get_group c group_id ;;
    _process_response response
  else if String.eqb name "scim_create_group" then
    c <- self_client self "create_group" ;;
    display_name <- Args.subscript "display_name" (Args.display_name arguments) ;;
    response <- SCIMClient.create_group c display_name
      (Args.external_id arguments) ;;
    _process_response response
  else if String.eqb name "scim_update_group" then
    c <- self_client self "update_group" ;;
    group_id <- Args.subscript "group_id" (Args.group_id arguments) ;;
    group_data <- Args.subscript "group_data" (Args.group_data arguments) ;;
    response <- SCIMClient.update_group c group_id group_data ;;
    _process_response response
  else if String.eqb name "scim_delete_group" then
    c <- self_client self "delete_group" ;;
    group_id <- Args.subscript "group_id" (Args.group_id arguments) ;;
    response <- SCIMClient.delete_group c group_id ;;
    _process_response response
  else if String.eqb name "scim_add_users_to_group" then
    c <- self_client self "add_members_to_group" ;;
    group_id <- Args.subscript "group_id" (Args.group_id arguments) ;;
    user_ids <- Args.subscript "user_ids" (Args.user_ids arguments) ;;
    response <- SCIMClient.add_members_to_group c group_id user_ids ;;
    _process_response response
  else if String.eqb name "scim_remove_users_from_group" then
    c <- self_client self "remove_members_from_group" ;;
    group_id <- Args.subscript "group_id" (Args.group_id arguments) ;;
    user_ids <- Args.subscript "user_ids" (Args.user_ids arguments) ;;
    response <- SCIMClient.remove_members_from_group c group_id user_ids ;;
    _process_response response
  else
    raise (ValueError ("Unknown tool: " +:+ name)).

(** The names [_execute_tool] dispatches on. *)
Definition registry : list string :=
  ["scim_list_users"; "scim_get_user"; "scim_create_user"; "scim_update_user";
   "scim_delete_user"; "scim_list_groups"; "scim_get_group";
   "scim_create_group"; "scim_update_group"; "scim_delete_group";
   "scim_add_users_to_group"; "scim_remove_users_from_group"].

(** What [json.dumps(..., indent=2)] is applied to in [handle_call_tool]. *)
Record error_envelope : Type := {
  error : string;
  tool : string;
  arguments : option Args.t
}.

Inductive dumped : Type :=
| Dumps (result : json)
| DumpsError (envelope : error_envelope).

Record TextContent : Type := {
  type : string;
  text : dumped
}.

(** [if not self.client: self.client = SCIMClient()] *)
Definition ensure_client (self : t) : M t :=
  match client self with
  | Some _ => ret self
  | None =>
      c <- SCIMClient.__init__ None None ;;
      ret {| client := Some c |}
  end.

(** [handle_call_tool]: the handler returns the server as it leaves it
    together with its reply; an exception leaves through [Raise]. *)
Definition handle_call_tool (self : t) (name : string)
    (arguments : option Args.t) : M (t * list TextContent) :=
  self <- ensure_client self ;;
  try_except
    (result <- _execute_tool self name (default Args.empty arguments) ;;
     ret (self, [{| type := "text"; text := Dumps result |}]))
    (fun e =>
       ret (self,
            [{| type := "text";
                text := DumpsError {| error := str_exn e; tool := name;
                                      arguments := arguments |} |}])).

(** [types.Tool(name=..., description=..., inputSchema=...)] *)
Record Tool : Type := {
  name : string;
  description : string;
  inputSchema : json
}.

(** One entry of a schema's ["properties"]. *)
Definition property (type description : string) : json :=
  JObj [("type", JStr type); ("description", JStr description)].

(** The ["user_ids"] property: an array of strings. *)
Definition string_array_property (description : string) : json :=
  JObj [("type", JStr "array");
        ("items", JObj [("type", JStr "string")]);
        ("description", JStr description)].

(** An input schema with a ["required"] list, and one without. *)
Definition object_schema (properties : list (string * json))
    (required : list string) : json :=
  JObj [("type", JStr "object");
        ("properties", JObj properties);
        ("required", JList (map JStr required))].

Definition open_schema (properties : list (string * json)) : json :=
  JObj [("type", JStr "object"); ("properties", JObj properties)].

(** [handle_list_tools] *)
Definition handle_list_tools : list Tool :=
  [ {| name := "scim_list_users";
       description := "List or search users in Cato Networks SCIM";
       inputSchema :=
         open_schema
           [("filter",
             property "string"
               ("SCIM filter expression (e.g., 'userName sw " +:+ PyStr.dquote
                +:+ "john" +:+ PyStr.dquote +:+ "')"));
            ("start_index",
             property "integer" "Starting index for pagination (default: 1)");
            ("count",
             property "integer" "Number of results per page (max: 100)")] |};
    {| name := "scim_get_user";
       description := "Get a specific user by ID";
       inputSchema :=
         object_schema [("user_id", property "string" "The SCIM user ID")]
           ["user_id"] |};
    {| name := "scim_create_user";
       description := "Create a new user in Cato Networks";
       inputSchema :=
         object_schema
           [("email",
             property "string" "User's email address (used as userName)");
            ("first_name", property "string" "User's first name");
            ("last_name", property "string" "User's last name");
            ("external_id",
             property "string" "External ID (auto-generated if not provided)");
            ("password",
             property "string" "User password (auto-generated if not provided)")]
           ["email"; "first_name"; "last_name"] |};
    {| name := "scim_update_user";
       description :=
         "Update an existing user. IMPORTANT: Include all fields you want to preserve, especially externalId.";
       inputSchema :=
         object_schema
           [("user_id", property "string" "The SCIM user ID");
            ("user_data",
             property "object"
               "SCIM user data to update. Should include 'externalId' field with the existing value to preserve it. Include all fields you want to keep or update.")]
           ["user_id"; "user_data"] |};
    {| name := "scim_delete_user";
       description := "Delete a user";
       inputSchema :=
         object_schema [("user_id", property "string" "The SCIM user ID")]
           ["user_id"] |};
    {| name := "scim_list_groups";
       description := "List or search groups in Cato Networks SCIM";
       inputSchema :=
         open_schema
           [("filter", property "string" "SCIM filter expression");
            ("start_index",
             property "integer" "Starting index for pagination (default: 1)");
            ("count",
             property "integer" "Number of results per page (max: 100)")] |};
    {| name := "scim_get_group";
       description := "Get a specific group by ID";
       inputSchema :=
         object_schema [("group_id", property "string" "The SCIM group ID")]
           ["group_id"] |};
    {| name := "scim_create_group";
       description := "Create a new group in Cato Networks";
       inputSchema :=
         object_schema
           [("display_name", property "string" "Group display name");
            ("external_id",
             property "string"
               "External ID (auto-generated 8-digit number if not provided)")]
           ["display_name"] |};
    {| name := "scim_update_group";
       description :=
         "Update an existing group. IMPORTANT: When renaming a group, you MUST include the existing externalId in the group_data to preserve it.";
       inputSchema :=
         object_schema
           [("group_id", property "string" "The SCIM group ID");
            ("group_data",
             property "object"
               "SCIM group data to update. MUST include 'externalId' field with the existing value when updating displayName to preserve the external ID. Include all fields you want to keep or update.")]
           ["group_id"; "group_data"] |};
    {| name := "scim_delete_group";
       description := "Delete a group";
       inputSchema :=
         object_schema [("group_id", property "string" "The SCIM group ID")]
           ["group_id"] |};
    {| name := "scim_add_users_to_group";
       description := "Add one or more users to a group using PATCH operation";
       inputSchema :=
         object_schema
           [("group_id", property "string" "The SCIM group ID");
            ("user_ids",
             string_array_property "List of SCIM user IDs to add to the group")]
           ["group_id"; "user_ids"] |};
    {| name := "scim_remove_users_from_group";
       description :=
         "Remove one or more users from a group using PATCH operation";
       inputSchema :=
         object_schema
           [("group_id", property "string" "The SCIM group ID");
            ("user_ids",
             string_array_property
               "List of SCIM user IDs to remove from the group")]
           ["group_id"; "user_ids"] |} ].

End SCIMMCPServer.

(** ** Reference definitions for the statements below *)

(** Removing one trailing slash and nothing else, as the specification words
    the normalisation of the base URL. *)
Fixpoint drop_last (s : string) : string :=
  match s with
  | EmptyString => EmptyString
  | String _ EmptyString => EmptyString
  | String a s' => String a (drop_last s')
  end.

Definition strip_one_trailing_slash (s : string) : string :=
  if PyStr.endswith s "/" then drop_last s else s.

(** The client as [__init__] leaves it for a resolved base URL and token. *)
Definition client_of (the_base_url the_token : string) (env_debug : option string)
    : SCIMClient.t :=
  {| SCIMClient.base_url := PyStr.rstrip "/" the_base_url;
     SCIMClient.token := the_token;
     SCIMClient.headers :=
       [("Authorization", "Bearer " +:+ the_token);
        ("Content-Type", "application/scim+json");
        ("Accept", "application/scim+json")];
     SCIMClient.debug :=
       let flag := PyStr.lower (default "false" env_debug) in
       String.eqb flag "true" || String.eqb flag "1" || String.eqb flag "yes" |}.

(** The request [_make_request] hands to the transport. *)
Definition request_of (c : SCIMClient.t) (method endpoint : string)
    (payload : option json) : Request :=
  {| method := method;
     url := SCIMClient.base_url c +:+ "/" +:+ PyStr.lstrip "/" endpoint;
     req_headers := SCIMClient.headers c;
     req_json := payload;
     timeout := 30 |}.

(** A world to run the code in: no configuration in the environment, a
    transport that answers every request with a 404, a fixed entropy tape. *)
Definition bare_world : World :=
  {| environ := ∅;
     http := fun _ _ =>
       inr {| status_code := 404; resp_headers := []; text := "Not Found";
              json_body := None |};
     json_dumps := fun _ => "{}";
     entropy := fun n => (7 * n + 3)%nat;
     drawn := 0;
     sent := [];
     logged := [] |}.

(** The same world with the two configuration variables set. *)
Definition configured_world : World :=
  {| environ :=
       <["SCIM_BASE_URL" := "https://api.example.com/scim/v2/"]>
         (<["SCIM_TOKEN" := "test-bearer-token-12345"]> ∅);
     http := http bare_world;
     json_dumps := json_dumps bare_world;
     entropy := entropy bare_world;
     drawn := 0;
     sent := [];
     logged := [] |}.

Definition example_client : SCIMClient.t :=
  client_of "https://api.example.com/scim/v2/" "test-token" None.

(** What the generated defaults of [create_user] and [create_group] satisfy. *)
Definition external_id_ok (eid : string) : Prop :=
  String.length eid = 12%nat /\ PyStr.all PyStr.isalnum eid = true.

Definition password_ok (pw : string) : Prop :=
  (6 < String.length pw)%nat
  /\ PyStr.endswith pw "!" = true
  /\ PyStr.any PyStr.isalpha pw = true
  /\ PyStr.any PyStr.isdigit pw = true.

Definition group_external_id_ok (eid : string) : Prop :=
  exists n : Z, 10000000 <= n <= 99999999 /\ eid = PyStr.of_int n.

(** A value the caller supplied is used as it is; a missing or empty one is
    replaced by a default that satisfies [ok]. *)
Definition supplied_or (ok : string -> Prop) (supplied : option string)
    (used : string) : Prop :=
  match truthy supplied with
  | Some v => used = v
  | None => ok used
  end.

(** The POST that [create_user] and [create_group] issue. *)
Definition post (c : SCIMClient.t) (resource : string) (payload : json) : Request :=
  {| method := "POST";
     url := SCIMClient.base_url c +:+ "/" +:+ resource;
     req_headers := SCIMClient.headers c;
     req_json := Some payload;
     timeout := 30 |}.

(** The dispatcher has a client to work with: it holds one already, or
    [SCIMClient()] builds one from the environment. *)
Definition client_ready (self : SCIMMCPServer.t) (w : World) (c : SCIMClient.t)
    : Prop :=
  SCIMMCPServer.client self = Some c
  \/ (SCIMMCPServer.client self = None
      /\ SCIMClient.__init__ None None w = (Return c, w)).

(** The reply that carries the error envelope [{error, tool, arguments}]. *)
Definition error_reply (error tool : string) (arguments : option Args.t)
    : list SCIMMCPServer.TextContent :=
  [{| SCIMMCPServer.type := "text";
      SCIMMCPServer.text :=
        SCIMMCPServer.DumpsError
          {| SCIMMCPServer.error := error; SCIMMCPServer.tool := tool;
             SCIMMCPServer.arguments := arguments |} |}].

(** A dispatcher that already holds the example client. *)
Definition example_server : SCIMMCPServer.t :=
  {| SCIMMCPServer.client := Some example_client |}.

(** A computation that returns normally and sends no request. *)
Definition silent {A : Type} (m : M A) : Prop :=
  forall w : World, exists (a : A) (w' : World),
    m w = (Return a, w') /\ sent w' = sent w.

(** *** The declared input schemas *)

(** The ["required"] list of a tool's input schema, empty when there is none. *)
Definition required_fields (tool : SCIMMCPServer.Tool) : list string :=
  match json_get "required" (SCIMMCPServer.inputSchema tool) with
  | Some (JList items) =>
      flat_map (fun item => match item with JStr key => [key] | _ => [] end) items
  | _ => []
  end.

(** The property names a tool's input schema declares. *)
Definition declared_properties (tool : SCIMMCPServer.Tool) : list string :=
  match json_get "properties" (SCIMMCPServer.inputSchema tool) with
  | Some (JObj properties) => map fst properties
  | _ => []
  end.

(** [key in arguments], for the keys the schemas declare. *)
Definition has_argument (arguments : Args.t) (key : string) : bool :=
  if String.eqb key "filter" then bool_decide (is_Some (Args.filter arguments))
  else if String.eqb key "start_index" then
    bool_decide (is_Some (Args.start_index arguments))
  else if String.eqb key "count" then bool_decide (is_Some (Args.count arguments))
  else if String.eqb key "user_id" then
    bool_decide (is_Some (Args.user_id arguments))
  else if String.eqb key "email" then bool_decide (is_Some (Args.email arguments))
  else if String.eqb key "first_name" then
    bool_decide (is_Some (Args.first_name arguments))
  else if String.eqb key "last_name" then
    bool_decide (is_Some (Args.last_name arguments))
  else if String.eqb key "external_id" then
    bool_decide (is_Some (Args.external_id arguments))
  else if String.eqb key "password" then
    bool_decide (is_Some (Args.password arguments))
  else if String.eqb key "user_data" then
    bool_decide (is_Some (Args.user_data arguments))
  else if String.eqb key "group_id" then
    bool_decide (is_Some (Args.group_id arguments))
  else if String.eqb key "display_name" then
    bool_decide (is_Some (Args.display_name arguments))
  else if String.eqb key "group_data" then
    bool_decide (is_Some (Args.group_data arguments))
  else if String.eqb key "user_ids" then
    bool_decide (is_Some (Args.user_ids arguments))
  else false.

(** The first required property, in declared order, that the call lacks. *)
Definition first_missing (tool : SCIMMCPServer.Tool) (arguments : option Args.t)
    : option string :=
  find (fun key => negb (has_argument (default Args.empty arguments) key))
    (required_fields tool).

(** *** Requests and their answers *)

(** What the transport answers to [req] in world [w]. *)
Definition transport_answer (w : World) (req : Request) : outcome Response :=
  match http w (sent w) req with
  | inl e => Raise e
  | inr response => Return response
  end.

(** [m] sends exactly the request [req] and hands back the transport's
    answer to it, be it a response or an exception. *)
Definition issues (m : M Response) (w : World) (req : Request) : Prop :=
  sent (snd (m w)) = sent w ++ [req]
  /\ fst (m w) = transport_answer w req.

(** The result envelope [_process_response] builds. *)
Definition result_envelope (response : Response) : json :=
  JObj [("status_code", JInt (status_code response));
        ("success", JBool (status_code response <? 400));
        ("data", match json_body response with
                 | Some body => body
                 | None => JStr (text response)
                 end)].



(** Two worlds that differ at most in the log and in the draws consumed. *)
Definition same_network (w w' : World) : Prop :=
  environ w' = environ w /\ http w' = http w /\ sent w' = sent w
  /\ json_dumps w' = json_dumps w /\ entropy w' = entropy w.


(** A computation that returns normally and touches at most the log and the
    position of the random source. *)
Definition framed {A : Type} (m : M A) : Prop :=
  forall w : World, exists (a : A) (w' : World),
    m w = (Return a, w') /\ same_network w w'.

(** The requests of the single-resource operations. *)
Definition resource_request (c : SCIMClient.t) (method resource id : string)
    (payload : option json) : Request :=
  {| method := method;
     url := SCIMClient.base_url c +:+ "/" +:+ resource +:+ "/" +:+ id;
     req_headers := SCIMClient.headers c;
     req_json := payload;
     timeout := 30 |}.




(** The position of a character in an alphabet. *)
Fixpoint index_of (a : ascii) (alphabet : list ascii) : nat :=
  match alphabet with
  | [] => O
  | x :: rest => if Ascii.eqb x a then O else S (index_of a rest)
  end.

(** The world with another random source. *)
Definition with_entropy (tape : nat -> nat) (w : World) : World :=
  {| environ := environ w; http := http w; json_dumps := json_dumps w;
     entropy := tape; drawn := drawn w; sent := sent w; logged := logged w |}.

(** A random source whose draws from position [start] on spell [target]. *)
Definition tape_spelling (alphabet target : list ascii) (start : nat)
    : nat -> nat :=
  fun n => index_of (nth (n - start) target Ascii.zero) alphabet.

(** The alphabet of [_generate_external_id]. *)
Definition alphanumerics : list ascii :=
  list_ascii_of_string (PyStr.ascii_letters +:+ PyStr.digits).

(** Arguments that hold a [group_id] and nothing else. *)
Definition only_group_id (group_id : string) : Args.t :=
  {| Args.filter := None; Args.start_index := None; Args.count := None;
     Args.user_id := None; Args.email := None; Args.first_name := None;
     Args.last_name := None; Args.external_id := None; Args.password := None;
     Args.user_data := None; Args.group_id := Some group_id;
     Args.display_name := None; Args.group_data := None; Args.user_ids := None |}.

(** The tool at a position of [handle_list_tools]. *)
Definition listed_tool (position : nat) : SCIMMCPServer.Tool :=
  nth position SCIMMCPServer.handle_list_tools
    {| SCIMMCPServer.name := ""; SCIMMCPServer.description := "";
       SCIMMCPServer.inputSchema := JNull |}.

(** Arguments of a group update: a [group_id] and the new [group_data]. *)
Definition group_update (group_id : string) (group_data : json) : Args.t :=
  {| Args.filter := None; Args.start_index := None; Args.count := None;
     Args.user_id := None; Args.email := None; Args.first_name := None;
     Args.last_name := None; Args.external_id := None; Args.password := None;
     Args.user_data := None; Args.group_id := Some group_id;
     Args.display_name := None; Args.group_data := Some group_data;
     Args.user_ids := None |}.

(** The characters [str(n)] is made of. *)
Definition digit_or_dash (c : ascii) : bool :=
  PyStr.isdigit c || Ascii.eqb c "-".

(** The two configuration errors of [SCIMClient.__init__]. *)
Definition base_url_error : exn :=
  ValueError
    "SCIM base URL must be provided via parameter or SCIM_BASE_URL environment variable".

Definition token_error : exn :=
  ValueError
    "SCIM token must be provided via parameter or SCIM_TOKEN environment variable".

Ltac run_monad :=
  unfold bind, ret, raise, try_except, os_getenv; simpl.

(** ** Strings: stripping *)

Section Stripping.

Variable c : ascii.

Lemma lstrip_startswith (s : string) :
  PyStr.startswith (PyStr.lstrip c s) c = false.
Proof.
  induction s as [|a s IH]; simpl; [reflexivity|].
  destruct (Ascii.eqb a c) eqn:E; [exact IH|].
  simpl. exact E.
Qed.

Lemma lstrip_decompose (s : string) :
  exists k, s = PyStr.replicate k c +:+ PyStr.lstrip c s.
Proof.
  induction s as [|a s [k IH]]; simpl.
  - exists O. reflexivity.
  - destruct (Ascii.eqb a c) eqn:E.
    + apply Ascii.eqb_eq in E. subst a.
      exists (S k). simpl. f_equal. exact IH.
    + exists O. reflexivity.
Qed.

Lemma rstrip_endswith (s : string) :
  PyStr.endswith (PyStr.rstrip c s) c = false.
Proof.
  induction s as [|a s IH]; simpl; [reflexivity|].
  destruct (PyStr.rstrip c s) as [|b r] eqn:R.
  - destruct (Ascii.eqb a c) eqn:E; simpl; [reflexivity|exact E].
  - exact IH.
Qed.

Lemma rstrip_decompose (s : string) :
  exists k, s = PyStr.rstrip c s +:+ PyStr.replicate k c.
Proof.
  induction s as [|a s [k IH]]; simpl.
  - exists O. reflexivity.
  - destruct (PyStr.rstrip c s) as [|b r] eqn:R.
    + destruct (Ascii.eqb a c) eqn:E.
      * apply Ascii.eqb_eq in E. subst a.
        exists (S k). simpl in *. f_equal. exact IH.
      * exists k. simpl in *. f_equal. exact IH.
    + exists k. simpl. f_equal. exact IH.
Qed.

Lemma rstrip_fixed (s : string) :
  PyStr.endswith s c = false -> PyStr.rstrip c s = s.
Proof.
  induction s as [|a s IH]; simpl; [reflexivity|].
  destruct s as [|b s'].
  - intros ->. reflexivity.
  - intros H. rewrite (IH H). reflexivity.
Qed.

Lemma rstrip_snoc (s : string) :
  PyStr.rstrip c (s +:+ String c EmptyString) = PyStr.rstrip c s.
Proof.
  induction s as [|a s IH]; simpl.
  - rewrite Ascii.eqb_refl. reflexivity.
  - rewrite IH. reflexivity.
Qed.

(** A string with exactly one trailing [c] loses that character only. *)
Lemma rstrip_one (s : string) :
  PyStr.endswith s c = false ->
  PyStr.rstrip c (s +:+ String c EmptyString) = s.
Proof.
  intros H. rewrite rstrip_snoc. apply rstrip_fixed, H.
Qed.

End Stripping.

(** ** The constructor *)

(** [__init__] reads the world and leaves it as it found it; its outcome is
    decided by the two resolved values. *)
Lemma init_run (w : World) (base_url token : option string) :
  SCIMClient.__init__ base_url token w =
  (match truthy (py_or base_url (environ w !! "SCIM_BASE_URL")) with
   | None => Raise base_url_error
   | Some b =>
       match truthy (py_or token (environ w !! "SCIM_TOKEN")) with
       | None => Raise token_error
       | Some t => Return (client_of b t (environ w !! "DEBUG"))
       end
   end, w).
Proof.
  unfold SCIMClient.__init__. run_monad.
  destruct (truthy (py_or base_url _)) as [b|]; [|reflexivity].
  destruct (truthy (py_or token _)) as [t|]; reflexivity.
Qed.

Lemma init_Return (w w' : World) (base_url token : option string) (c : SCIMClient.t) :
  SCIMClient.__init__ base_url token w = (Return c, w') ->
  exists b t,
    truthy (py_or base_url (environ w !! "SCIM_BASE_URL")) = Some b /\
    truthy (py_or token (environ w !! "SCIM_TOKEN")) = Some t /\
    c = client_of b t (environ w !! "DEBUG") /\ w' = w.
Proof.
  rewrite init_run.
  destruct (truthy (py_or base_url _)) as [b|]; [|discriminate].
  destruct (truthy (py_or token _)) as [t|]; [|discriminate].
  intros H. inversion H. subst. exists b, t. repeat split; reflexivity.
Qed.

Lemma silent_ret {A : Type} (a : A) : silent (ret a).
Proof. intros w. exists a, w. split; reflexivity. Qed.

Lemma silent_bind {A B : Type} (m : M A) (k : A -> M B) :
  silent m -> (forall a, silent (k a)) -> silent (bind m k).
Proof.
  intros Hm Hk w. unfold bind.
  destruct (Hm w) as (a & w1 & -> & Hs1).
  destruct (Hk a w1) as (b & w2 & -> & Hs2).
  exists b, w2. split; [reflexivity|congruence].
Qed.

Lemma silent_logger_debug (line : string) : silent (logger_debug line).
Proof. intros w. eexists _, _. split; reflexivity. Qed.

Lemma silent_json_dumps (value : json) : silent (py_json_dumps value).
Proof. intros w. eexists _, _. split; reflexivity. Qed.

(** Logging returns normally and sends nothing. *)
Lemma log_request_response_run (c : SCIMClient.t) (method url : string)
    (payload : option json) (response : Response) (w : World) :
  exists w',
    SCIMClient._log_request_response c method url payload response w
    = (Return tt, w')
    /\ sent w' = sent w.
Proof.
  assert (Hsilent : silent
            (SCIMClient._log_request_response c method url payload response)).
  { unfold SCIMClient._log_request_response.
    destruct (negb (SCIMClient.debug c)); [apply silent_ret|].
    repeat (apply silent_bind;
            [solve [apply silent_logger_debug | apply silent_json_dumps]|intros ?]).
    apply silent_bind.
    { destruct (payload_truthy payload); [|apply silent_ret].
      apply silent_bind; [apply silent_json_dumps|intros ?].
      apply silent_logger_debug. }
    intros _.
    repeat (apply silent_bind;
            [solve [apply silent_logger_debug | apply silent_json_dumps]|intros ?]).
    intros w0. unfold try_except_JSONDecodeError, response_json.
    destruct (json_body response) as [body|].
    - destruct (silent_bind (ret body)
                  (fun response_json =>
                     dumped_body <- py_json_dumps response_json ;;
                     logger_debug ("Response Body: " +:+ dumped_body))
                  (silent_ret body)
                  (fun j => silent_bind _ _ (silent_json_dumps j)
                              (fun d => silent_logger_debug _)) w0)
        as (res & wf & -> & Hs).
      exists res, wf. split; [reflexivity|exact Hs].
    - unfold bind, raise.
      destruct (silent_logger_debug ("Response Body (raw): " +:+ text response) w0)
        as (res & wf & -> & Hs).
      exists res, wf. split; [reflexivity|exact Hs]. }
  destruct (Hsilent w) as ([] & w' & H & Hs). exists w'. split; assumption.
Qed.

Lemma requests_request_sent (req : Request) (w : World) :
  sent (snd (requests_request req w)) = sent w ++ [req].
Proof.
  unfold requests_request. destruct (http w (sent w) req); reflexivity.
Qed.

Lemma make_request_sent (c : SCIMClient.t) (method endpoint : string)
    (payload : option json) (w : World) :
  sent (snd (SCIMClient._make_request c method endpoint payload w)) =
  sent w ++ [request_of c method endpoint payload].
Proof.
  unfold SCIMClient._make_request. fold (request_of c method endpoint payload).
  unfold bind at 1.
  pose proof (requests_request_sent (request_of c method endpoint payload) w) as Hs.
  destruct (requests_request _ w) as [[response|e] w1]; simpl in Hs; [|exact Hs].
  unfold bind.
  destruct (log_request_response_run c method
              (SCIMClient.base_url c +:+ "/" +:+ PyStr.lstrip "/" endpoint)
              payload response w1) as (w2 & -> & Hs2).
  simpl. congruence.
Qed.

(** C1, as stated, fails: a base URL with two trailing slashes loses both,
    where removing exactly one slash would keep the other. *)
Lemma C1_two_trailing_slashes_both_stripped :
  SCIMClient.__init__ (Some "https://api.example.com/scim/v2//") (Some "test-token")
    bare_world
  = (Return (client_of "https://api.example.com/scim/v2//" "test-token" None),
     bare_world)
  /\ SCIMClient.base_url (client_of "https://api.example.com/scim/v2//" "test-token" None)
     = "https://api.example.com/scim/v2"
  /\ strip_one_trailing_slash "https://api.example.com/scim/v2//"
     = "https://api.example.com/scim/v2/"
  /\ SCIMClient.base_url (client_of "https://api.example.com/scim/v2//" "test-token" None)
     <> strip_one_trailing_slash "https://api.example.com/scim/v2//".
Proof.
  split; [reflexivity|].
  split; [reflexivity|].
  split; [reflexivity|].
  vm_compute. discriminate.
Qed.

(** C1 (amended): for every base URL and token accepted at construction, the
    client strips every trailing slash from the base URL (so a base URL with
    exactly one trailing slash loses that slash and no other character), sets
    the Authorization header to "Bearer " followed by the token, and every
    request it issues has exactly one slash between the normalised base URL
    and the endpoint path, whatever leading slashes the endpoint carries. *)
Theorem C1_base_url_authorization_and_request_url :
  forall (w w' : World) (base_url token : option string) (c : SCIMClient.t),
    SCIMClient.__init__ base_url token w = (Return c, w') ->
    exists b t : string,
      truthy (py_or base_url (environ w !! "SCIM_BASE_URL")) = Some b /\
      truthy (py_or token (environ w !! "SCIM_TOKEN")) = Some t /\
      (exists k, b = SCIMClient.base_url c +:+ PyStr.replicate k "/") /\
      PyStr.endswith (SCIMClient.base_url c) "/" = false /\
      (forall s, PyStr.endswith s "/" = false -> b = s +:+ "/" ->
                 SCIMClient.base_url c = s) /\
      dict_get "Authorization" (SCIMClient.headers c) = Some ("Bearer " +:+ t) /\
      forall (method endpoint : string) (payload : option json) (w1 : World),
      exists (j : nat) (path : string),
        endpoint = PyStr.replicate j "/" +:+ path /\
        PyStr.startswith path "/" = false /\
        sent (snd (SCIMClient._make_request c method endpoint payload w1)) =
          sent w1 ++
          [{| method := method;
              url := SCIMClient.base_url c +:+ "/" +:+ path;
              req_headers := SCIMClient.headers c;
              req_json := payload;
              timeout := 30 |}].
Proof.
  intros w w' base_url token c H.
  apply init_Return in H as (b & t & Hb & Ht & -> & _).
  exists b, t. split; [exact Hb|]. split; [exact Ht|].
  split; [apply rstrip_decompose|].
  split; [apply rstrip_endswith|].
  split.
  { intros s Hs ->. apply rstrip_one, Hs. }
  split; [reflexivity|].
  intros method endpoint payload w1.
  destruct (lstrip_decompose "/" endpoint) as [j Hj].
  exists j, (PyStr.lstrip "/" endpoint).
  split; [exact Hj|]. split; [apply lstrip_startswith|].
  apply make_request_sent.
Qed.

Lemma C1_witness :
  exists b t : string,
    truthy (py_or None (environ configured_world !! "SCIM_BASE_URL")) = Some b /\
    truthy (py_or None (environ configured_world !! "SCIM_TOKEN")) = Some t /\
    (exists k, b = "https://api.example.com/scim/v2" +:+ PyStr.replicate k "/") /\
    dict_get "Authorization"
      (SCIMClient.headers
         (client_of "https://api.example.com/scim/v2/" "test-bearer-token-12345" None))
    = Some ("Bearer " +:+ t).
Proof.
  destruct (C1_base_url_authorization_and_request_url
              configured_world configured_world None None
              (client_of "https://api.example.com/scim/v2/"
                         "test-bearer-token-12345" None))
    as (b & t & Hb & Ht & Hk & _ & _ & Hauth & _).
  - vm_compute. reflexivity.
  - exists b, t. split; [exact Hb|]. split; [exact Ht|].
    split; [exact Hk|exact Hauth].
Defined.

(** C6: when the base URL or the token is still absent after the environment
    fallback (not given, or given as the empty string, which Python treats
    alike), construction fails with the configuration error, the world is
    untouched and so no request has been sent; when both are present,
    construction succeeds and raises nothing. *)
Theorem C6_configuration_error_at_construction :
  forall (w : World) (base_url token : option string),
    let b := py_or base_url (environ w !! "SCIM_BASE_URL") in
    let t := py_or token (environ w !! "SCIM_TOKEN") in
    (b = None \/ t = None ->
     exists msg, SCIMClient.__init__ base_url token w = (Raise (ValueError msg), w))
    /\ (truthy b = None \/ truthy t = None ->
        exists msg, SCIMClient.__init__ base_url token w = (Raise (ValueError msg), w))
    /\ (forall b' t', truthy b = Some b' -> truthy t = Some t' ->
        SCIMClient.__init__ base_url token w
        = (Return (client_of b' t' (environ w !! "DEBUG")), w))
    /\ sent (snd (SCIMClient.__init__ base_url token w)) = sent w.
Proof.
  intros w base_url token b t.
  assert (Hfail : truthy b = None \/ truthy t = None ->
    exists msg, SCIMClient.__init__ base_url token w = (Raise (ValueError msg), w)).
  { rewrite init_run. fold b t. intros [Hb|Ht].
    - rewrite Hb. eexists. reflexivity.
    - rewrite Ht. destruct (truthy b); eexists; reflexivity. }
  split.
  { intros [Hb|Ht]; apply Hfail; [left; rewrite Hb|right; rewrite Ht]; reflexivity. }
  split; [exact Hfail|].
  split.
  { intros b' t' Hb Ht. rewrite init_run. fold b t. rewrite Hb, Ht. reflexivity. }
  rewrite init_run. reflexivity.
Qed.

Lemma C6_witness :
  (exists msg,
     SCIMClient.__init__ (Some "https://api.example.com/scim/v2") None bare_world
     = (Raise (ValueError msg), bare_world))
  /\ (exists msg,
        SCIMClient.__init__ None (Some "test-token") bare_world
        = (Raise (ValueError msg), bare_world))
  /\ SCIMClient.__init__ None None configured_world
     = (Return (client_of "https://api.example.com/scim/v2/"
                          "test-bearer-token-12345" None),
        configured_world).
Proof.
  split; [|split].
  - apply (C6_configuration_error_at_construction bare_world
             (Some "https://api.example.com/scim/v2") None).
    right. reflexivity.
  - apply (C6_configuration_error_at_construction bare_world
             None (Some "test-token")).
    left. reflexivity.
  - apply (C6_configuration_error_at_construction configured_world None None);
      reflexivity.
Defined.

(** ** Response normalisation *)

(** C3: for every response, [_process_response] returns the envelope
    [{status_code, success, data}] and raises nothing: [success] is true
    exactly when the status code is below 400, and [data] is the decoded JSON
    body, or the raw body text when the body does not decode. *)
Theorem C3_process_response_envelope :
  forall (response : Response) (w : World),
    SCIMMCPServer._process_response response w
    = (Return
         (JObj
            [("status_code", JInt (status_code response));
             ("success", JBool (status_code response <? 400));
             ("data",
              match json_body response with
              | Some body => body
              | None => JStr (text response)
              end)]),
       w)
    /\ ((status_code response <? 400) = true <-> status_code response < 400).
Proof.
  intros response w. split.
  - unfold SCIMMCPServer._process_response, response_json.
    run_monad. destruct (json_body response); reflexivity.
  - apply Z.ltb_lt.
Qed.

(** ** Group membership *)

(** The loop of [remove_members_from_group] builds the list it would build
    with a comprehension. *)
Lemma remove_loop (user_ids : list string) (operations : list json) :
  fold_left
    (fun operations user_id => operations ++ [SCIMClient.remove_operation user_id])
    user_ids operations
  = operations ++ map SCIMClient.remove_operation user_ids.
Proof.
  revert operations.
  induction user_ids as [|user_id rest IH]; intros operations; simpl.
  - rewrite app_nil_r. reflexivity.
  - rewrite IH, <- app_assoc. reflexivity.
Qed.

Lemma lookup_map {A B : Type} (f : A -> B) (l : list A) (i : nat) (x : A) :
  l !! i = Some x -> map f l !! i = Some (f x).
Proof.
  revert i. induction l as [|a l IH]; intros [|i] H; simpl in *;
    try discriminate.
  - inversion H. reflexivity.
  - apply IH, H.
Qed.

Lemma patch_group_sent (c : SCIMClient.t) (group_id : string)
    (operations : list json) (w : World) :
  sent (snd (SCIMClient.patch_group c group_id operations w)) =
  sent w ++
  [{| method := "PATCH";
      url := SCIMClient.base_url c +:+ "/Groups/" +:+ group_id;
      req_headers := SCIMClient.headers c;
      req_json :=
        Some (JObj
                [("schemas",
                  JList [JStr "urn:ietf:params:scim:api:messages:2.0:PatchOp"]);
                 ("Operations", JList operations)]);
      timeout := 30 |}].
Proof.
  unfold SCIMClient.patch_group. rewrite make_request_sent. reflexivity.
Qed.

(** C4: [remove_members_from_group] issues one PATCH whose body holds the
    PatchOp schemas list and one [Operations] entry per user id, in the order
    of the input list, each [{op: "remove", path: members[value eq "<id>"]}]
    with no [value] field. *)
Theorem C4_remove_members_one_operation_per_id :
  forall (c : SCIMClient.t) (group_id : string) (user_ids : list string) (w : World),
    let operation := fun user_id : string =>
      JObj [("op", JStr "remove");
            ("path", JStr ("members[value eq " +:+ PyStr.dquote +:+ user_id
                           +:+ PyStr.dquote +:+ "]"))] in
    let operations := map operation user_ids in
    sent (snd (SCIMClient.remove_members_from_group c group_id user_ids w)) =
      sent w ++
      [{| method := "PATCH";
          url := SCIMClient.base_url c +:+ "/Groups/" +:+ group_id;
          req_headers := SCIMClient.headers c;
          req_json :=
            Some (JObj
                    [("schemas",
                      JList [JStr "urn:ietf:params:scim:api:messages:2.0:PatchOp"]);
                     ("Operations", JList operations)]);
          timeout := 30 |}]
    /\ length operations = length user_ids
    /\ (forall (i : nat) (user_id : string),
          user_ids !! i = Some user_id -> operations !! i = Some (operation user_id))
    /\ (forall user_id : string,
          json_get "value" (operation user_id) = None
          /\ json_get "op" (operation user_id) = Some (JStr "remove")).
Proof.
  intros c group_id user_ids w operation operations.
  split; [|split; [|split]].
  - unfold SCIMClient.remove_members_from_group.
    rewrite patch_group_sent, remove_loop. reflexivity.
  - apply length_map.
  - intros i user_id H. unfold operations.
    apply lookup_map, H.
  - intros user_id. split; reflexivity.
Qed.

Lemma C4_witness :
  sent (snd (SCIMClient.remove_members_from_group example_client "g1" ["a"; "b"]
               bare_world))
  = [{| method := "PATCH";
        url := "https://api.example.com/scim/v2/Groups/g1";
        req_headers := SCIMClient.headers example_client;
        req_json :=
          Some (JObj
                  [("schemas",
                    JList [JStr "urn:ietf:params:scim:api:messages:2.0:PatchOp"]);
                   ("Operations",
                    JList
                      [JObj [("op", JStr "remove");
                             ("path", JStr ("members[value eq " +:+ PyStr.dquote
                                            +:+ "a" +:+ PyStr.dquote +:+ "]"))];
                       JObj [("op", JStr "remove");
                             ("path", JStr ("members[value eq " +:+ PyStr.dquote
                                            +:+ "b" +:+ PyStr.dquote +:+ "]"))]])]);
        timeout := 30 |}]
  /\ (["a"; "b"] : list string) !! 1%nat = Some "b"
  /\ map SCIMClient.remove_operation ["a"; "b"] !! 1%nat
     = Some (SCIMClient.remove_operation "b").
Proof.
  destruct (C4_remove_members_one_operation_per_id example_client "g1" ["a"; "b"]
              bare_world) as (Hsent & _ & Hnth & _).
  split; [exact Hsent|].
  split; [reflexivity|].
  apply (Hnth 1%nat "b"). reflexivity.
Defined.

Lemma C3_witness :
  SCIMMCPServer._process_response
    {| status_code := 404; resp_headers := []; text := "{}";
               json_body := Some (JObj []) |} bare_world
  = (Return (JObj [("status_code", JInt 404); ("success", JBool false);
                   ("data", JObj [])]), bare_world)
  /\ SCIMMCPServer._process_response
       {| status_code := 200; resp_headers := []; text := "<html>";
               json_body := None |} bare_world
     = (Return (JObj [("status_code", JInt 200); ("success", JBool true);
                      ("data", JStr "<html>")]), bare_world)
  /\ 200 < 400.
Proof.
  split; [|split].
  - apply (C3_process_response_envelope
             {| status_code := 404; resp_headers := []; text := "{}";
               json_body := Some (JObj []) |}).
  - apply (C3_process_response_envelope
             {| status_code := 200; resp_headers := []; text := "<html>";
               json_body := None |}).
  - apply (C3_process_response_envelope
             {| status_code := 200; resp_headers := []; text := "<html>";
               json_body := None |}
             bare_world).
    reflexivity.
Defined.

(** ** Printing integers *)

Section StringPredicates.

Variable p : ascii -> bool.

Lemma all_app (s1 s2 : string) :
  PyStr.all p (s1 +:+ s2) = PyStr.all p s1 && PyStr.all p s2.
Proof.
  induction s1 as [|a s1 IH]; simpl; [reflexivity|].
  rewrite IH. apply andb_assoc.
Qed.

Lemma any_app (s1 s2 : string) :
  PyStr.any p (s1 +:+ s2) = PyStr.any p s1 || PyStr.any p s2.
Proof.
  induction s1 as [|a s1 IH]; simpl; [reflexivity|].
  rewrite IH. apply orb_assoc.
Qed.

Lemma all_contains (s : string) (c : ascii) :
  PyStr.all p s = true -> p c = false -> PyStr.contains c s = false.
Proof.
  intros Hall Hc. induction s as [|a s IH]; simpl in *; [reflexivity|].
  apply andb_true_iff in Hall as [Ha Hs].
  rewrite (IH Hs), orb_false_r.
  destruct (Ascii.eqb a c) eqn:E; [|reflexivity].
  apply Ascii.eqb_eq in E. congruence.
Qed.

(** The digits [pretty] emits satisfy [p] as soon as the ten digits do. *)
Hypothesis p_digits : forall d : N, (d < 10)%N -> p (pretty_N_char d) = true.

Lemma pretty_N_go_all (x : N) (s : string) :
  PyStr.all p s = true -> PyStr.all p (pretty_N_go x s) = true.
Proof.
  revert s. induction (N.lt_wf_0 x) as [x _ IH]. intros s Hs.
  destruct (N.eq_dec x 0%N) as [->|Hx].
  - rewrite pretty_N_go_0. exact Hs.
  - rewrite pretty_N_go_step by lia.
    apply IH.
    + apply N.div_lt; lia.
    + simpl. rewrite Hs, andb_true_r. apply p_digits.
      apply N.mod_lt. lia.
Qed.

Lemma pretty_N_all (x : N) : PyStr.all p (pretty x) = true.
Proof.
  unfold pretty, pretty_N. destruct (decide (x = 0%N)).
  - simpl. rewrite andb_true_r. apply (p_digits 0%N). lia.
  - apply pretty_N_go_all. reflexivity.
Qed.

Lemma of_int_nonneg_all (n : Z) : 0 <= n -> PyStr.all p (PyStr.of_int n) = true.
Proof.
  intros Hn. unfold PyStr.of_int, pretty, pretty_Z.
  destruct n as [|q|q]; [| |lia].
  - simpl. rewrite andb_true_r. apply (p_digits 0%N). lia.
  - apply pretty_N_all.
Qed.

Lemma of_int_all (n : Z) :
  p "-" = true -> PyStr.all p (PyStr.of_int n) = true.
Proof.
  intros Hdash. destruct (Z.le_gt_cases 0 n) as [Hn|Hn].
  - apply of_int_nonneg_all, Hn.
  - unfold PyStr.of_int, pretty, pretty_Z.
    destruct n as [|q|q]; try lia.
    rewrite all_app. simpl. rewrite Hdash. simpl. apply pretty_N_all.
Qed.

End StringPredicates.

Lemma contains_app (c : ascii) (s1 s2 : string) :
  PyStr.contains c (s1 +:+ s2) = PyStr.contains c s1 || PyStr.contains c s2.
Proof.
  induction s1 as [|a s1 IH]; simpl; [reflexivity|].
  rewrite IH. apply orb_assoc.
Qed.

(** A pattern cannot occur in a string that lacks its first character. *)
Lemma occurs_first_char (c : ascii) (rest s : string) :
  PyStr.contains c s = false -> PyStr.occurs (String c rest) s = false.
Proof.
  induction s as [|a s IH]; simpl; [reflexivity|].
  intros H. apply orb_false_iff in H as [Ha Hs].
  rewrite (IH Hs), orb_false_r.
  destruct (ascii_dec c a) as [->|Hne]; [|reflexivity].
  rewrite Ascii.eqb_refl in Ha. discriminate.
Qed.

Lemma digits_are_digits (d : N) : (d < 10)%N -> PyStr.isdigit (pretty_N_char d) = true.
Proof.
  intros H.
  assert (d = 0 \/ d = 1 \/ d = 2 \/ d = 3 \/ d = 4 \/ d = 5 \/ d = 6
          \/ d = 7 \/ d = 8 \/ d = 9)%N as Hd by lia.
  repeat (destruct Hd as [->|Hd]; [reflexivity|]). subst d. reflexivity.
Qed.

Lemma digits_are_digit_or_dash (d : N) :
  (d < 10)%N -> digit_or_dash (pretty_N_char d) = true.
Proof.
  intros H. unfold digit_or_dash. rewrite digits_are_digits by exact H.
  reflexivity.
Qed.

(** [str(n)] never holds the letter f. *)
Lemma of_int_without_f (n : Z) : PyStr.contains "f" (PyStr.of_int n) = false.
Proof.
  apply (all_contains digit_or_dash); [|reflexivity].
  apply of_int_all; [apply digits_are_digit_or_dash|reflexivity].
Qed.

(** ** The list operations *)

Lemma list_request_sent (c : SCIMClient.t) (resource : string)
    (params : list (string * scalar)) (w : World) :
  params <> [] ->
  PyStr.lstrip "/" resource = resource ->
  resource <> "" ->
  sent (snd (SCIMClient._make_request c "GET"
               (SCIMClient.list_endpoint resource params) None w))
  = sent w ++
    [{| method := "GET";
        url := SCIMClient.base_url c +:+ "/" +:+ resource +:+ "?"
               +:+ SCIMClient.query_string params;
        req_headers := SCIMClient.headers c;
        req_json := None;
        timeout := 30 |}].
Proof.
  intros Hparams Hres Hne. rewrite make_request_sent. unfold request_of.
  destruct params as [|kv rest]; [congruence|]. simpl SCIMClient.list_endpoint.
  destruct resource as [|a r]; [congruence|].
  simpl in *. destruct (Ascii.eqb a "/") eqn:E; [|reflexivity].
  exfalso. apply Ascii.eqb_eq in E. subst a.
  pose proof (lstrip_startswith "/" r) as Hs. rewrite Hres in Hs.
  simpl in Hs. discriminate.
Qed.

(** C5: [get_users] and [get_groups] transmit [count] as the minimum of the
    requested count and 100, hence 100 for every request above 100; without a
    filter expression the query string is [startIndex=..&count=..] and the
    word [filter] occurs nowhere in it; with one, [filter=...] is appended. *)
Theorem C5_count_clamped_and_filter_omitted :
  forall (c : SCIMClient.t) (start_index count : Z) (w : World),
    let query :=
      "startIndex=" +:+ PyStr.of_int start_index
      +:+ "&count=" +:+ PyStr.of_int (Z.min count 100) in
    let get := fun url : string =>
      {| method := "GET"; url := url; req_headers := SCIMClient.headers c;
         req_json := None; timeout := 30 |} in
    (100 < count -> PyStr.of_int (Z.min count 100) = "100")
    /\ sent (snd (SCIMClient.get_users c start_index count None w))
       = sent w ++ [get (SCIMClient.base_url c +:+ "/Users?" +:+ query)]
    /\ sent (snd (SCIMClient.get_groups c start_index count None w))
       = sent w ++ [get (SCIMClient.base_url c +:+ "/Groups?" +:+ query)]
    /\ PyStr.occurs "filter" query = false
    /\ (forall f : string, f <> "" ->
        sent (snd (SCIMClient.get_users c start_index count (Some f) w))
        = sent w ++
          [get (SCIMClient.base_url c +:+ "/Users?" +:+ query +:+ "&filter=" +:+ f)]
        /\ sent (snd (SCIMClient.get_groups c start_index count (Some f) w))
           = sent w ++
             [get (SCIMClient.base_url c +:+ "/Groups?" +:+ query +:+ "&filter=" +:+ f)]).
Proof.
  intros c start_index count w query get.
  split.
  { intros H. rewrite Z.min_r by lia. reflexivity. }
  split.
  { unfold SCIMClient.get_users.
    rewrite list_request_sent by (reflexivity || discriminate). reflexivity. }
  split.
  { unfold SCIMClient.get_groups.
    rewrite list_request_sent by (reflexivity || discriminate). reflexivity. }
  split.
  { apply occurs_first_char. unfold query.
    rewrite !contains_app, !of_int_without_f. reflexivity. }
  intros f Hf.
  assert (Ht : truthy (Some f) = Some f).
  { simpl. destruct (String.eqb_spec f ""); [contradiction|reflexivity]. }
  assert (Hassoc : forall a b d : string, (a +:+ b) +:+ d = a +:+ b +:+ d).
  { intros a b d. induction a as [|x a IH]; simpl; [reflexivity|].
    rewrite IH. reflexivity. }
  split.
  - unfold SCIMClient.get_users, SCIMClient.list_params. rewrite Ht.
    rewrite list_request_sent by (reflexivity || discriminate).
    unfold get, query. simpl. rewrite !Hassoc. reflexivity.
  - unfold SCIMClient.get_groups, SCIMClient.list_params. rewrite Ht.
    rewrite list_request_sent by (reflexivity || discriminate).
    unfold get, query. simpl. rewrite !Hassoc. reflexivity.
Qed.

Lemma C5_witness :
  PyStr.of_int (Z.min 250 100) = "100"
  /\ sent (snd (SCIMClient.get_users example_client 1 250 None bare_world))
     = [{| method := "GET";
           url := "https://api.example.com/scim/v2/Users?startIndex=1&count=100";
           req_headers := SCIMClient.headers example_client;
           req_json := None; timeout := 30 |}]
  /\ sent (snd (SCIMClient.get_groups example_client 1 5 (Some "displayName pr")
                  bare_world))
     = [{| method := "GET";
           url := "https://api.example.com/scim/v2/Groups?startIndex=1&count=5&filter=displayName pr";
           req_headers := SCIMClient.headers example_client;
           req_json := None; timeout := 30 |}].
Proof.
  destruct (C5_count_clamped_and_filter_omitted example_client 1 250 bare_world)
    as (Hclamped & Husers & _).
  destruct (C5_count_clamped_and_filter_omitted example_client 1 5 bare_world)
    as (_ & _ & _ & _ & Hfilter).
  destruct (Hfilter "displayName pr") as [_ Hgroups]; [discriminate|].
  split; [apply Hclamped; lia|].
  split.
  - rewrite Husers. vm_compute. reflexivity.
  - rewrite Hgroups. vm_compute. reflexivity.
Defined.

(** ** The random source *)

Lemma randbelow_run (n : nat) (w : World) :
  exists w',
    randbelow n w = (Return (entropy w (drawn w) mod n)%nat, w')
    /\ sent w' = sent w.
Proof. eexists. split; reflexivity. Qed.

(** A choice from a non-empty sequence never fails and yields one of its
    elements, whatever the random source draws. *)
Lemma random_choice_run {A : Type} (seq : list A) (w : World) :
  seq <> [] ->
  exists x w',
    random_choice seq w = (Return x, w') /\ In x seq /\ sent w' = sent w.
Proof.
  intros Hne. unfold random_choice, bind. simpl.
  assert (Hlt : (entropy w (drawn w) mod length seq < length seq)%nat).
  { apply Nat.mod_upper_bound. destruct seq; [congruence|simpl; lia]. }
  apply lookup_lt_is_Some_2 in Hlt as [x Hx]. rewrite Hx.
  eexists x, _. split; [reflexivity|]. split; [|reflexivity].
  apply list_elem_of_In. eapply list_elem_of_lookup_2, Hx.
Qed.

Lemma random_choices_run {A : Type} (population : list A) (k : nat) (w : World) :
  population <> [] ->
  exists xs w',
    random_choices population k w = (Return xs, w')
    /\ length xs = k
    /\ Forall (fun x => In x population) xs
    /\ sent w' = sent w.
Proof.
  intros Hne. revert w. induction k as [|k IH]; intros w; simpl.
  - exists [], w. repeat split. constructor.
  - unfold bind.
    destruct (random_choice_run population w Hne) as (x & w1 & -> & Hx & Hs1).
    destruct (IH w1) as (xs & w2 & -> & Hlen & Hall & Hs2).
    exists (x :: xs), w2. split; [reflexivity|].
    split; [simpl; congruence|].
    split; [constructor; assumption|congruence].
Qed.

Lemma random_randint_run (a b : Z) (w : World) :
  a <= b ->
  exists n w',
    random_randint a b w = (Return n, w') /\ a <= n <= b /\ sent w' = sent w.
Proof.
  intros Hab. unfold random_randint, bind, ret. simpl.
  eexists _, _. split; [reflexivity|]. split; [|reflexivity].
  assert (Hlt : (entropy w (drawn w) mod Z.to_nat (b - a + 1)
                 < Z.to_nat (b - a + 1))%nat).
  { apply Nat.mod_upper_bound. lia. }
  lia.
Qed.

(** ** Generated defaults *)

Lemma string_length_app (s1 s2 : string) :
  String.length (s1 +:+ s2) = (String.length s1 + String.length s2)%nat.
Proof.
  induction s1 as [|a s1 IH]; simpl; [reflexivity|]. rewrite IH. reflexivity.
Qed.

Lemma string_app_assoc (s1 s2 s3 : string) :
  (s1 +:+ s2) +:+ s3 = s1 +:+ s2 +:+ s3.
Proof.
  induction s1 as [|a s1 IH]; simpl; [reflexivity|]. rewrite IH. reflexivity.
Qed.

Lemma endswith_snoc (s : string) (c : ascii) :
  PyStr.endswith (s +:+ String c EmptyString) c = true.
Proof.
  induction s as [|a s IH]; simpl.
  - apply Ascii.eqb_refl.
  - destruct (s +:+ String c EmptyString) eqn:E; [|exact IH].
    destruct s; discriminate.
Qed.

Lemma all_any (p : ascii -> bool) (s : string) :
  s <> "" -> PyStr.all p s = true -> PyStr.any p s = true.
Proof.
  destruct s as [|a s]; [congruence|]. simpl. intros _ H.
  apply andb_true_iff in H as [-> _]. reflexivity.
Qed.

Lemma of_chars_length (chars : list ascii) :
  String.length (PyStr.of_chars chars) = length chars.
Proof.
  unfold PyStr.of_chars.
  induction chars as [|a chars IH]; simpl; [reflexivity|].
  rewrite IH. reflexivity.
Qed.

Lemma of_chars_all (p : ascii -> bool) (chars : list ascii) :
  Forall (fun a => p a = true) chars -> PyStr.all p (PyStr.of_chars chars) = true.
Proof.
  unfold PyStr.of_chars.
  induction 1 as [|a chars Ha _ IH]; simpl; [reflexivity|].
  rewrite Ha, IH. reflexivity.
Qed.

Lemma N_div10_range (x lo hi : N) :
  (10 * lo <= x < 10 * hi)%N -> (lo <= x / 10 < hi)%N.
Proof.
  intros [Hlo Hhi]. split.
  - apply N.div_le_lower_bound; lia.
  - apply N.Div0.div_lt_upper_bound; lia.
Qed.

Lemma pretty_N_go_six (x : N) (s : string) :
  (100000 <= x < 1000000)%N ->
  String.length (pretty_N_go x s) = (6 + String.length s)%nat.
Proof.
  intros H0.
  pose proof (N_div10_range x 10000 100000 ltac:(lia)) as H1.
  pose proof (N_div10_range (x / 10) 1000 10000 ltac:(lia)) as H2.
  pose proof (N_div10_range (x / 10 / 10) 100 1000 ltac:(lia)) as H3.
  pose proof (N_div10_range (x / 10 / 10 / 10) 10 100 ltac:(lia)) as H4.
  pose proof (N_div10_range (x / 10 / 10 / 10 / 10) 1 10 ltac:(lia)) as H5.
  pose proof (N_div10_range (x / 10 / 10 / 10 / 10 / 10) 0 1 ltac:(lia)) as H6.
  do 6 (rewrite pretty_N_go_step by lia).
  replace (x / 10 / 10 / 10 / 10 / 10 / 10)%N with 0%N by lia.
  rewrite pretty_N_go_0. reflexivity.
Qed.

(** A number drawn by [random.randint(100000, 999999)] prints as six digits. *)
Lemma of_int_six_digits (n : Z) :
  100000 <= n <= 999999 ->
  String.length (PyStr.of_int n) = 6%nat
  /\ PyStr.all PyStr.isdigit (PyStr.of_int n) = true.
Proof.
  intros Hn. split.
  - unfold PyStr.of_int, pretty, pretty_Z.
    destruct n as [|q|q]; try lia.
    unfold pretty, pretty_positive, pretty, pretty_N.
    destruct (decide (N.pos q = 0%N)) as [E|_]; [discriminate|].
    rewrite pretty_N_go_six by lia. reflexivity.
  - apply of_int_nonneg_all; [apply digits_are_digits|lia].
Qed.

Lemma words_checked (p : string -> bool) (words : list string) (word : string) :
  forallb p words = true -> In word words -> p word = true.
Proof. intros H Hin. rewrite forallb_forall in H. apply H, Hin. Qed.

(** [_generate_external_id] always returns: twelve characters, each a letter
    or a digit; it sends nothing. *)
Lemma generate_external_id_run (c : SCIMClient.t) (w : World) :
  exists eid w',
    SCIMClient._generate_external_id c w = (Return eid, w')
    /\ String.length eid = 12%nat
    /\ PyStr.all PyStr.isalnum eid = true
    /\ sent w' = sent w.
Proof.
  unfold SCIMClient._generate_external_id, bind, ret.
  destruct (random_choices_run
              (list_ascii_of_string (PyStr.ascii_letters +:+ PyStr.digits)) 12 w)
    as (chars & w' & -> & Hlen & Hall & Hsent); [discriminate|].
  exists (PyStr.of_chars chars), w'. split; [reflexivity|].
  split; [rewrite of_chars_length; exact Hlen|].
  split; [|exact Hsent].
  apply of_chars_all. eapply Forall_impl; [exact Hall|].
  intros a Ha. revert a Ha. apply forallb_forall. vm_compute. reflexivity.
Qed.

(** [_generate_easy_password] always returns: an adjective, a noun, six digits
    and an exclamation mark; it sends nothing. *)
Lemma generate_easy_password_run (c : SCIMClient.t) (w : World) :
  exists pw w',
    SCIMClient._generate_easy_password c w = (Return pw, w')
    /\ (6 < String.length pw)%nat
    /\ PyStr.endswith pw "!" = true
    /\ PyStr.any PyStr.isalpha pw = true
    /\ PyStr.any PyStr.isdigit pw = true
    /\ sent w' = sent w.
Proof.
  unfold SCIMClient._generate_easy_password, bind, ret.
  destruct (random_choice_run SCIMClient.adjectives w)
    as (adjective & w1 & -> & Hadj & Hs1); [discriminate|].
  destruct (random_choice_run SCIMClient.nouns w1)
    as (noun & w2 & -> & Hnoun & Hs2); [discriminate|].
  destruct (random_randint_run 100000 999999 w2)
    as (number & w3 & -> & Hnum & Hs3); [lia|].
  destruct (of_int_six_digits number Hnum) as [Hlen Hdigits].
  exists (adjective +:+ noun +:+ PyStr.of_int number +:+ "!"), w3.
  split; [reflexivity|].
  split; [rewrite !string_length_app, Hlen; simpl; lia|].
  split.
  { rewrite <- !string_app_assoc. apply endswith_snoc. }
  split.
  { rewrite any_app.
    rewrite (words_checked (PyStr.any PyStr.isalpha) SCIMClient.adjectives adjective);
      [reflexivity|vm_compute; reflexivity|exact Hadj]. }
  split; [|congruence].
  rewrite !any_app.
  rewrite (all_any PyStr.isdigit (PyStr.of_int number)).
  - rewrite !orb_true_r. reflexivity.
  - intros E. rewrite E in Hlen. discriminate.
  - exact Hdigits.
Qed.

(** ** Creating users and groups *)

(** [create_user] sends exactly one request, a POST to [Users], whose payload
    carries the supplied or generated external id and password. *)
Lemma create_user_sent (c : SCIMClient.t) (email firstName lastName : string)
    (externalId password : option string) (w : World) :
  exists eid pw : string,
    sent (snd (SCIMClient.create_user c email firstName lastName
                 externalId password w))
    = sent w ++ [post c "Users" (SCIMClient.user_payload email firstName lastName eid pw)]
    /\ supplied_or external_id_ok externalId eid
    /\ supplied_or password_ok password pw.
Proof.
  unfold SCIMClient.create_user, supplied_or.
  unfold bind at 1.
  assert (He : exists eid w1,
    (match truthy externalId with
     | Some e => ret e
     | None => SCIMClient._generate_external_id c
     end) w = (Return eid, w1)
    /\ sent w1 = sent w
    /\ match truthy externalId with
       | Some v => eid = v
       | None => external_id_ok eid
       end).
  { destruct (truthy externalId) as [e|].
    - exists e, w. repeat split.
    - destruct (generate_external_id_run c w) as (eid & w1 & H & Hl & Ha & Hs).
      exists eid, w1. repeat split; assumption. }
  destruct He as (eid & w1 & -> & Hs1 & Heid).
  unfold bind at 1.
  assert (Hp : exists pw w2,
    (match truthy password with
     | Some p => ret p
     | None => SCIMClient._generate_easy_password c
     end) w1 = (Return pw, w2)
    /\ sent w2 = sent w1
    /\ match truthy password with
       | Some v => pw = v
       | None => password_ok pw
       end).
  { destruct (truthy password) as [p0|].
    - exists p0, w1. repeat split.
    - destruct (generate_easy_password_run c w1)
        as (pw & w2 & H & Hl & He & Ha & Hd & Hs).
      exists pw, w2. repeat split; assumption. }
  destruct Hp as (pw & w2 & -> & Hs2 & Hpw).
  exists eid, pw. split; [|split; assumption].
  rewrite make_request_sent, Hs2, Hs1. reflexivity.
Qed.

Lemma create_group_sent (c : SCIMClient.t) (displayName : string)
    (externalId : option string) (w : World) :
  exists eid : string,
    sent (snd (SCIMClient.create_group c displayName externalId w))
    = sent w ++ [post c "Groups" (SCIMClient.group_payload displayName eid)]
    /\ supplied_or group_external_id_ok externalId eid.
Proof.
  unfold SCIMClient.create_group, supplied_or.
  destruct (truthy externalId) as [e|].
  - exists e. split; [|reflexivity].
    unfold bind at 1. unfold ret at 1. rewrite make_request_sent. reflexivity.
  - destruct (random_randint_run 10000000 99999999 w)
      as (n & w1 & Hrun & Hn & Hs); [lia|].
    exists (PyStr.of_int n). split; [|exists n; split; [exact Hn|reflexivity]].
    unfold bind at 1 2. rewrite Hrun. unfold ret at 1.
    rewrite make_request_sent, Hs. reflexivity.
Qed.

(** C7: called without a password, [create_user] POSTs a payload whose
    password is longer than 6 characters, ends in an exclamation mark, and
    holds a letter and a digit, whatever the random source draws. *)
Theorem C7_generated_password :
  forall (c : SCIMClient.t) (email firstName lastName : string)
         (externalId : option string) (w : World),
  exists (payload : json) (pw : string),
    sent (snd (SCIMClient.create_user c email firstName lastName externalId None w))
    = sent w ++
      [{| method := "POST"; url := SCIMClient.base_url c +:+ "/Users";
          req_headers := SCIMClient.headers c; req_json := Some payload;
          timeout := 30 |}]
    /\ json_get "password" payload = Some (JStr pw)
    /\ (6 < String.length pw)%nat
    /\ PyStr.endswith pw "!" = true
    /\ PyStr.any PyStr.isalpha pw = true
    /\ PyStr.any PyStr.isdigit pw = true.
Proof.
  intros c email firstName lastName externalId w.
  destruct (create_user_sent c email firstName lastName externalId None w)
    as (eid & pw & Hsent & _ & Hpw).
  exists (SCIMClient.user_payload email firstName lastName eid pw), pw.
  split; [exact Hsent|]. split; [reflexivity|]. exact Hpw.
Qed.

(** C8: called without an external id, [create_user] POSTs a payload whose
    external id has exactly 12 characters, each an ASCII letter or a decimal
    digit, whatever the random source draws. *)
Theorem C8_generated_external_id :
  forall (c : SCIMClient.t) (email firstName lastName : string)
         (password : option string) (w : World),
  exists (payload : json) (eid : string),
    sent (snd (SCIMClient.create_user c email firstName lastName None password w))
    = sent w ++
      [{| method := "POST"; url := SCIMClient.base_url c +:+ "/Users";
          req_headers := SCIMClient.headers c; req_json := Some payload;
          timeout := 30 |}]
    /\ json_get "externalId" payload = Some (JStr eid)
    /\ String.length eid = 12%nat
    /\ PyStr.all PyStr.isalnum eid = true.
Proof.
  intros c email firstName lastName password w.
  destruct (create_user_sent c email firstName lastName None password w)
    as (eid & pw & Hsent & Heid & _).
  exists (SCIMClient.user_payload email firstName lastName eid pw), eid.
  split; [exact Hsent|]. split; [reflexivity|]. exact Heid.
Qed.

(** C10: at the client's interface the empty string behaves as an absent
    argument: [create_user] and [create_group] run exactly as without the
    external id or password and so send a generated default, and the list
    operations run exactly as without a filter and so send no filter
    parameter. *)
Theorem C10_empty_string_is_absent :
  forall (c : SCIMClient.t) (email firstName lastName displayName : string)
         (externalId password : option string) (start_index count : Z) (w : World),
    SCIMClient.create_user c email firstName lastName (Some "") password w
    = SCIMClient.create_user c email firstName lastName None password w
    /\ SCIMClient.create_user c email firstName lastName externalId (Some "") w
       = SCIMClient.create_user c email firstName lastName externalId None w
    /\ SCIMClient.create_group c displayName (Some "") w
       = SCIMClient.create_group c displayName None w
    /\ SCIMClient.get_users c start_index count (Some "") w
       = SCIMClient.get_users c start_index count None w
    /\ SCIMClient.get_groups c start_index count (Some "") w
       = SCIMClient.get_groups c start_index count None w
    /\ (exists eid pw : string,
          sent (snd (SCIMClient.create_user c email firstName lastName
                       (Some "") (Some "") w))
          = sent w ++
            [post c "Users" (SCIMClient.user_payload email firstName lastName eid pw)]
          /\ external_id_ok eid /\ password_ok pw)
    /\ (exists eid : string,
          sent (snd (SCIMClient.create_group c displayName (Some "") w))
          = sent w ++ [post c "Groups" (SCIMClient.group_payload displayName eid)]
          /\ group_external_id_ok eid)
    /\ sent (snd (SCIMClient.get_users c start_index count (Some "") w))
       = sent w ++
         [{| method := "GET";
             url := SCIMClient.base_url c +:+ "/Users?startIndex="
                    +:+ PyStr.of_int start_index +:+ "&count="
                    +:+ PyStr.of_int (Z.min count 100);
             req_headers := SCIMClient.headers c; req_json := None;
             timeout := 30 |}]
    /\ sent (snd (SCIMClient.get_groups c start_index count (Some "") w))
       = sent w ++
         [{| method := "GET";
             url := SCIMClient.base_url c +:+ "/Groups?startIndex="
                    +:+ PyStr.of_int start_index +:+ "&count="
                    +:+ PyStr.of_int (Z.min count 100);
             req_headers := SCIMClient.headers c; req_json := None;
             timeout := 30 |}].
Proof.
  intros c email firstName lastName displayName externalId password
         start_index count w.
  do 5 (split; [reflexivity|]).
  split.
  { destruct (create_user_sent c email firstName lastName (Some "") (Some "") w)
      as (eid & pw & Hsent & Heid & Hpw).
    exists eid, pw. repeat split; solve [exact Hsent | apply Heid | apply Hpw]. }
  split.
  { destruct (create_group_sent c displayName (Some "") w) as (eid & Hsent & Heid).
    exists eid. split; [exact Hsent|exact Heid]. }
  split.
  - unfold SCIMClient.get_users.
    rewrite list_request_sent by (reflexivity || discriminate). reflexivity.
  - unfold SCIMClient.get_groups.
    rewrite list_request_sent by (reflexivity || discriminate). reflexivity.
Qed.

(** ** The dispatcher *)

Lemma execute_unknown_tool (self : SCIMMCPServer.t) (name : string)
    (arguments : Args.t) (w : World) :
  ~ In name SCIMMCPServer.registry ->
  SCIMMCPServer._execute_tool self name arguments w
  = (Raise (ValueError ("Unknown tool: " +:+ name)), w).
Proof.
  intros Hname. unfold SCIMMCPServer._execute_tool.
  repeat match goal with
         | |- context [String.eqb name ?r] =>
             destruct (String.eqb_spec name r) as [->|_];
             [exfalso; apply Hname; unfold SCIMMCPServer.registry; simpl; tauto|]
         end.
  reflexivity.
Qed.

Lemma execute_create_user_without_email (c : SCIMClient.t) (arguments : Args.t)
    (w : World) :
  Args.email arguments = None ->
  SCIMMCPServer._execute_tool {| SCIMMCPServer.client := Some c |}
    "scim_create_user" arguments w
  = (Raise (KeyError "email"), w).
Proof.
  intros Hemail. unfold SCIMMCPServer._execute_tool. simpl.
  unfold bind, SCIMMCPServer.self_client. simpl. rewrite Hemail. reflexivity.
Qed.

(** With a client at hand, the handler is [_execute_tool] inside the
    [try]: a result is dumped, an exception becomes the error envelope. *)
Lemma handle_call_tool_ready (self : SCIMMCPServer.t) (c : SCIMClient.t)
    (name : string) (arguments : option Args.t) (w : World) :
  client_ready self w c ->
  SCIMMCPServer.handle_call_tool self name arguments w
  = match SCIMMCPServer._execute_tool {| SCIMMCPServer.client := Some c |} name
            (default Args.empty arguments) w with
    | (Return result, w') =>
        (Return ({| SCIMMCPServer.client := Some c |},
                 [{| SCIMMCPServer.type := "text";
                     SCIMMCPServer.text := SCIMMCPServer.Dumps result |}]), w')
    | (Raise e, w') =>
        (Return ({| SCIMMCPServer.client := Some c |},
                 error_reply (str_exn e) name arguments), w')
    end.
Proof.
  intros Hready. unfold SCIMMCPServer.handle_call_tool.
  assert (Hensure : SCIMMCPServer.ensure_client self w
                    = (Return {| SCIMMCPServer.client := Some c |}, w)).
  { unfold SCIMMCPServer.ensure_client, client_ready in *.
    destruct self as [cl]. simpl in *.
    destruct Hready as [->|[-> Hinit]]; [reflexivity|].
    unfold bind. rewrite Hinit. reflexivity. }
  unfold bind at 1. rewrite Hensure. unfold try_except, bind.
  destruct (SCIMMCPServer._execute_tool _ name _ w) as [[result|e] w'];
    reflexivity.
Qed.

Lemma handle_call_tool_unready (self : SCIMMCPServer.t) (name : string)
    (arguments : option Args.t) (w w' : World) (e : exn) :
  SCIMMCPServer.client self = None ->
  SCIMClient.__init__ None None w = (Raise e, w') ->
  SCIMMCPServer.handle_call_tool self name arguments w = (Raise e, w').
Proof.
  intros Hnone Hinit.
  unfold SCIMMCPServer.handle_call_tool, SCIMMCPServer.ensure_client.
  rewrite Hnone. unfold bind. rewrite Hinit. reflexivity.
Qed.

(** Either the dispatcher has a client to work with, or it has none and the
    construction fails; the failure leaves the world as it was. *)
Lemma ready_or_unconfigured (self : SCIMMCPServer.t) (w : World) :
  (exists c, client_ready self w c)
  \/ (SCIMMCPServer.client self = None
      /\ exists e, SCIMClient.__init__ None None w = (Raise e, w)).
Proof.
  unfold client_ready. destruct (SCIMMCPServer.client self) as [c|] eqn:Hc.
  - left. exists c. left. reflexivity.
  - rewrite init_run.
    destruct (truthy (py_or None _)) as [b|].
    + destruct (truthy (py_or None _)) as [t|].
      * left. eexists. right. split; reflexivity.
      * right. split; [reflexivity|]. eexists. reflexivity.
    + right. split; [reflexivity|]. eexists. reflexivity.
Qed.

(** C2, as stated, fails: on a dispatcher that has no client yet and finds no
    configuration in the environment, an unknown operation name is answered
    by the configuration error, raised out of the handler, and not by an error
    envelope. *)
Lemma C2_unconfigured_dispatcher_raises :
  SCIMMCPServer.handle_call_tool SCIMMCPServer.__init__ "scim_no_such_tool" None
    bare_world
  = (Raise base_url_error, bare_world)
  /\ ~ In "scim_no_such_tool" SCIMMCPServer.registry
  /\ forall reply,
       SCIMMCPServer.handle_call_tool SCIMMCPServer.__init__ "scim_no_such_tool"
         None bare_world
       <> (Return reply, bare_world).
Proof.
  split; [reflexivity|]. split.
  - unfold SCIMMCPServer.registry. simpl. intros H.
    repeat (destruct H as [H|H]; [discriminate|]). exact H.
  - intros reply. discriminate.
Qed.

(** C2 (amended): on a dispatcher whose client exists or can be constructed
    from the environment, an operation name outside the registry is answered
    with the error envelope [{error, tool, arguments}], and [create_user]
    without [email] is answered with the error envelope whose error names the
    missing field; neither case sends a request, whether or not the
    dispatcher has a client. *)
Theorem C2_unknown_tool_and_missing_email :
  forall (self : SCIMMCPServer.t) (name : string) (arguments : option Args.t)
         (w : World),
    (forall c : SCIMClient.t,
       client_ready self w c ->
       ~ In name SCIMMCPServer.registry ->
       SCIMMCPServer.handle_call_tool self name arguments w
       = (Return ({| SCIMMCPServer.client := Some c |},
                  error_reply ("Unknown tool: " +:+ name) name arguments), w))
    /\ (forall c : SCIMClient.t,
          client_ready self w c ->
          Args.email (default Args.empty arguments) = None ->
          SCIMMCPServer.handle_call_tool self "scim_create_user" arguments w
          = (Return ({| SCIMMCPServer.client := Some c |},
                     error_reply "'email'" "scim_create_user" arguments), w))
    /\ (~ In name SCIMMCPServer.registry ->
        sent (snd (SCIMMCPServer.handle_call_tool self name arguments w)) = sent w)
    /\ (Args.email (default Args.empty arguments) = None ->
        sent (snd (SCIMMCPServer.handle_call_tool self "scim_create_user"
                     arguments w)) = sent w).
Proof.
  intros self name arguments w.
  assert (Hunknown : forall c, client_ready self w c ->
    ~ In name SCIMMCPServer.registry ->
    SCIMMCPServer.handle_call_tool self name arguments w
    = (Return ({| SCIMMCPServer.client := Some c |},
               error_reply ("Unknown tool: " +:+ name) name arguments), w)).
  { intros c Hready Hname.
    rewrite (handle_call_tool_ready self c) by exact Hready.
    rewrite execute_unknown_tool by exact Hname. reflexivity. }
  assert (Hemail : forall c, client_ready self w c ->
    Args.email (default Args.empty arguments) = None ->
    SCIMMCPServer.handle_call_tool self "scim_create_user" arguments w
    = (Return ({| SCIMMCPServer.client := Some c |},
               error_reply "'email'" "scim_create_user" arguments), w)).
  { intros c Hready Hnone.
    rewrite (handle_call_tool_ready self c) by exact Hready.
    rewrite execute_create_user_without_email by exact Hnone. reflexivity. }
  split; [exact Hunknown|]. split; [exact Hemail|].
  split.
  - intros Hname.
    destruct (ready_or_unconfigured self w) as [[c Hready]|[Hnone [e Hinit]]].
    + rewrite (Hunknown c Hready Hname). reflexivity.
    + rewrite (handle_call_tool_unready self name arguments w w e Hnone Hinit).
      reflexivity.
  - intros Hnone.
    destruct (ready_or_unconfigured self w) as [[c Hready]|[Hcl [e Hinit]]].
    + rewrite (Hemail c Hready Hnone). reflexivity.
    + rewrite (handle_call_tool_unready self _ arguments w w e Hcl Hinit).
      reflexivity.
Qed.

Lemma C2_witness :
  SCIMMCPServer.handle_call_tool example_server "scim_no_such_tool" None bare_world
  = (Return (example_server,
             error_reply "Unknown tool: scim_no_such_tool" "scim_no_such_tool" None),
     bare_world)
  /\ SCIMMCPServer.handle_call_tool SCIMMCPServer.__init__ "scim_create_user"
       (Some Args.empty) configured_world
     = (Return ({| SCIMMCPServer.client :=
                     Some (client_of "https://api.example.com/scim/v2/"
                                     "test-bearer-token-12345" None) |},
                error_reply "'email'" "scim_create_user" (Some Args.empty)),
        configured_world)
  /\ sent (snd (SCIMMCPServer.handle_call_tool SCIMMCPServer.__init__
                  "scim_no_such_tool" None bare_world)) = [].
Proof.
  assert (Hname : ~ In "scim_no_such_tool" SCIMMCPServer.registry).
  { unfold SCIMMCPServer.registry. simpl. intros H.
    repeat (destruct H as [H|H]; [discriminate|]). exact H. }
  split; [|split].
  - apply (C2_unknown_tool_and_missing_email example_server "scim_no_such_tool"
             None bare_world); [left; reflexivity|exact Hname].
  - apply (C2_unknown_tool_and_missing_email SCIMMCPServer.__init__
             "scim_create_user" (Some Args.empty) configured_world);
      [right; split; reflexivity|reflexivity].
  - destruct (C2_unknown_tool_and_missing_email SCIMMCPServer.__init__
                "scim_no_such_tool" None bare_world) as (_ & _ & Hquiet & _).
    exact (Hquiet Hname).
Defined.

(** C9: when the dispatcher has no client yet, the client is constructed
    before the [try] is entered, so a configuration error of that
    construction leaves the handler as an exception, not as an error
    envelope; once a client is at hand, every exception [_execute_tool]
    raises is answered with the error envelope [{error, tool, arguments}]. *)
Theorem C9_configuration_error_escapes_the_handler :
  forall (self : SCIMMCPServer.t) (name : string) (arguments : option Args.t)
         (w : World),
    (SCIMMCPServer.client self = None ->
     forall (e : exn) (w' : World),
       SCIMClient.__init__ None None w = (Raise e, w') ->
       SCIMMCPServer.handle_call_tool self name arguments w = (Raise e, w'))
    /\ (SCIMMCPServer.client self = None ->
        truthy (environ w !! "SCIM_BASE_URL") = None ->
        SCIMMCPServer.handle_call_tool self name arguments w
        = (Raise base_url_error, w))
    /\ (SCIMMCPServer.client self = None ->
        is_Some (truthy (environ w !! "SCIM_BASE_URL")) ->
        truthy (environ w !! "SCIM_TOKEN") = None ->
        SCIMMCPServer.handle_call_tool self name arguments w
        = (Raise token_error, w))
    /\ (forall (c : SCIMClient.t) (e : exn) (w' : World),
          client_ready self w c ->
          SCIMMCPServer._execute_tool {| SCIMMCPServer.client := Some c |} name
            (default Args.empty arguments) w = (Raise e, w') ->
          SCIMMCPServer.handle_call_tool self name arguments w
          = (Return ({| SCIMMCPServer.client := Some c |},
                     error_reply (str_exn e) name arguments), w')).
Proof.
  intros self name arguments w.
  split; [|split; [|split]].
  - intros Hnone e w' Hinit. apply handle_call_tool_unready; assumption.
  - intros Hnone Hbase. apply handle_call_tool_unready; [exact Hnone|].
    rewrite init_run. change (py_or None ?x) with x. rewrite Hbase. reflexivity.
  - intros Hnone [b Hbase] Htoken.
    apply handle_call_tool_unready; [exact Hnone|].
    rewrite init_run. change (py_or None ?x) with x.
    rewrite Hbase, Htoken. reflexivity.
  - intros c e w' Hready Hexec.
    rewrite (handle_call_tool_ready self c) by exact Hready.
    rewrite Hexec. reflexivity.
Qed.

Lemma C9_witness :
  SCIMMCPServer.handle_call_tool SCIMMCPServer.__init__ "scim_get_user" None
    bare_world
  = (Raise base_url_error, bare_world)
  /\ SCIMMCPServer.handle_call_tool example_server "scim_get_user" None bare_world
     = (Return (example_server, error_reply "'user_id'" "scim_get_user" None),
        bare_world).
Proof.
  split.
  - destruct (C9_configuration_error_escapes_the_handler SCIMMCPServer.__init__
                "scim_get_user" None bare_world) as (_ & Hescapes & _).
    apply Hescapes; reflexivity.
  - destruct (C9_configuration_error_escapes_the_handler example_server
                "scim_get_user" None bare_world) as (_ & _ & _ & Hcaught).
    apply (Hcaught example_client (KeyError "user_id") bare_world);
      [left; reflexivity|reflexivity].
Defined.

(** * Further properties of the client and the dispatcher *)

(** ** Frames: what logging and drawing leave alone *)

Lemma same_network_refl (w : World) : same_network w w.
Proof. repeat split. Qed.

Lemma same_network_trans (w1 w2 w3 : World) :
  same_network w1 w2 -> same_network w2 w3 -> same_network w1 w3.
Proof.
  intros (He & Hh & Hs & Hj & Hr) (He' & Hh' & Hs' & Hj' & Hr').
  repeat split; congruence.
Qed.

Lemma same_network_answer (w w' : World) (req : Request) :
  same_network w w' -> transport_answer w' req = transport_answer w req.
Proof.
  intros (_ & Hh & Hs & _). unfold transport_answer. rewrite Hh, Hs. reflexivity.
Qed.

Lemma framed_ret {A : Type} (a : A) : framed (ret a).
Proof. intros w. exists a, w. split; [reflexivity|apply same_network_refl]. Qed.

Lemma framed_bind {A B : Type} (m : M A) (k : A -> M B) :
  framed m -> (forall a, framed (k a)) -> framed (bind m k).
Proof.
  intros Hm Hk w. unfold bind.
  destruct (Hm w) as (a & w1 & -> & H1).
  destruct (Hk a w1) as (b & w2 & -> & H2).
  exists b, w2. split; [reflexivity|].
  eapply same_network_trans; eassumption.
Qed.

Lemma framed_logger_debug (line : string) : framed (logger_debug line).
Proof. intros w. eexists _, _. split; [reflexivity|]. repeat split. Qed.

Lemma framed_json_dumps (value : json) : framed (py_json_dumps value).
Proof. intros w. eexists _, _. split; [reflexivity|]. repeat split. Qed.

Lemma framed_randbelow (n : nat) : framed (randbelow n).
Proof. intros w. eexists _, _. split; [reflexivity|]. repeat split. Qed.



Lemma framed_random_randint (a b : Z) : framed (random_randint a b).
Proof.
  unfold random_randint.
  apply framed_bind; [apply framed_randbelow|intros i]. apply framed_ret.
Qed.

Lemma framed_log_request_response (c : SCIMClient.t) (method url : string)
    (payload : option json) (response : Response) :
  framed (SCIMClient._log_request_response c method url payload response).
Proof.
  unfold SCIMClient._log_request_response.
  destruct (negb (SCIMClient.debug c)); [apply framed_ret|].
  repeat (apply framed_bind;
          [solve [apply framed_logger_debug | apply framed_json_dumps]|intros ?]).
  apply framed_bind.
  { destruct (payload_truthy payload); [|apply framed_ret].
    apply framed_bind; [apply framed_json_dumps|intros ?].
    apply framed_logger_debug. }
  intros _.
  repeat (apply framed_bind;
          [solve [apply framed_logger_debug | apply framed_json_dumps]|intros ?]).
  intros w0. unfold try_except_JSONDecodeError, response_json.
  destruct (json_body response) as [body|].
  - destruct (framed_bind (ret body)
                (fun response_json =>
                   dumped_body <- py_json_dumps response_json ;;
                   logger_debug ("Response Body: " +:+ dumped_body))
                (framed_ret body)
                (fun j => framed_bind _ _ (framed_json_dumps j)
                            (fun d => framed_logger_debug _)) w0)
      as (res & wf & -> & Hs).
    exists res, wf. split; [reflexivity|exact Hs].
  - unfold bind, raise.
    destruct (framed_logger_debug ("Response Body (raw): " +:+ text response) w0)
      as (res & wf & -> & Hs).
    exists res, wf. split; [reflexivity|exact Hs].
Qed.

(** ** Every client call is one request and the transport's answer to it *)

Lemma requests_request_issues (req : Request) (w : World) :
  requests_request req w
  = (transport_answer w req,
     {| environ := environ w; http := http w; json_dumps := json_dumps w;
        entropy := entropy w; drawn := drawn w; sent := sent w ++ [req];
        logged := logged w |}).
Proof.
  unfold requests_request, transport_answer.
  destruct (http w (sent w) req); reflexivity.
Qed.

Lemma make_request_answer (c : SCIMClient.t) (method endpoint : string)
    (payload : option json) (w : World) :
  exists w',
    SCIMClient._make_request c method endpoint payload w
    = (transport_answer w (request_of c method endpoint payload), w')
    /\ sent w' = sent w ++ [request_of c method endpoint payload]
    /\ http w' = http w /\ environ w' = environ w.
Proof.
  unfold SCIMClient._make_request.
  fold (request_of c method endpoint payload).
  unfold bind at 1. rewrite requests_request_issues.
  destruct (transport_answer w _) as [response|e].
  - unfold bind.
    destruct (framed_log_request_response c method
                (SCIMClient.base_url c +:+ "/" +:+ PyStr.lstrip "/" endpoint)
                payload response
                {| environ := environ w; http := http w;
                   json_dumps := json_dumps w; entropy := entropy w;
                   drawn := drawn w;
                   sent := sent w ++ [request_of c method endpoint payload];
                   logged := logged w |})
      as ([] & w2 & Hrun & (He & Hh & Hs & _)).
    rewrite Hrun. exists w2. split; [reflexivity|].
    split; [exact Hs|]. split; [exact Hh|exact He].
  - eexists. split; [reflexivity|]. repeat split.
Qed.

Lemma make_request_issues (c : SCIMClient.t) (method endpoint : string)
    (payload : option json) (w : World) :
  issues (SCIMClient._make_request c method endpoint payload) w
    (request_of c method endpoint payload).
Proof.
  destruct (make_request_answer c method endpoint payload w)
    as (w' & Hrun & Hs & _).
  unfold issues. rewrite Hrun. split; [exact Hs|reflexivity].
Qed.

(** A framed prelude does not change what the request that follows it is
    answered with. *)
Lemma issues_after {A : Type} (prelude : M A) (k : A -> M Response)
    (w w1 : World) (a : A) (req : Request) :
  prelude w = (Return a, w1) -> same_network w w1 ->
  issues (k a) w1 req -> issues (bind prelude k) w req.
Proof.
  intros Hrun Hframe [Hsent Hans]. unfold issues, bind. rewrite Hrun.
  rewrite Hsent, Hans, (same_network_answer w w1 req Hframe).
  destruct Hframe as (_ & _ & Hs & _). rewrite Hs. split; reflexivity.
Qed.





(** ** Generated defaults, more closely *)

Lemma pretty_N_go_eight (x : N) (s : string) :
  (10000000 <= x < 100000000)%N ->
  String.length (pretty_N_go x s) = (8 + String.length s)%nat.
Proof.
  intros H0.
  pose proof (N_div10_range x 1000000 10000000 ltac:(lia)) as H1.
  pose proof (N_div10_range (x / 10) 100000 1000000 ltac:(lia)) as H2.
  do 2 (rewrite pretty_N_go_step by lia).
  rewrite pretty_N_go_six by lia. reflexivity.
Qed.

Lemma of_int_eight_digits (n : Z) :
  10000000 <= n <= 99999999 ->
  String.length (PyStr.of_int n) = 8%nat
  /\ PyStr.all PyStr.isdigit (PyStr.of_int n) = true.
Proof.
  intros Hn. split.
  - unfold PyStr.of_int, pretty, pretty_Z.
    destruct n as [|q|q]; try lia.
    unfold pretty, pretty_positive, pretty, pretty_N.
    destruct (decide (N.pos q = 0%N)) as [E|_]; [discriminate|].
    rewrite pretty_N_go_eight by lia. reflexivity.
  - apply of_int_nonneg_all; [apply digits_are_digits|lia].
Qed.

Lemma create_group_issues (c : SCIMClient.t) (displayName : string)
    (externalId : option string) (w : World) :
  exists eid : string,
    issues (SCIMClient.create_group c displayName externalId) w
      (post c "Groups" (SCIMClient.group_payload displayName eid))
    /\ match truthy externalId with
       | Some supplied => eid = supplied
       | None =>
           String.length eid = 8%nat
           /\ PyStr.all PyStr.isdigit eid = true
       end.
Proof.
  unfold SCIMClient.create_group.
  destruct (truthy externalId) as [supplied|].
  - exists supplied. split; [|reflexivity].
    eapply (issues_after (ret supplied)); [reflexivity|apply same_network_refl|].
    exact (make_request_issues c _ _ _ w).
  - destruct (framed_random_randint 10000000 99999999 w)
      as (n & w1 & Hrun & Hframe).
    destruct (random_randint_run 10000000 99999999 w)
      as (n' & w1' & Hrun' & Hn & _); [lia|].
    rewrite Hrun in Hrun'. inversion Hrun'. subst n' w1'.
    exists (PyStr.of_int n). split; [|apply of_int_eight_digits, Hn].
    eapply (issues_after _ _ w w1 (PyStr.of_int n)).
    + unfold bind, ret. rewrite Hrun. reflexivity.
    + exact Hframe.
    + exact (make_request_issues c _ _ _ w1).
Qed.










Lemma truthy_nonempty (s : string) : s <> "" -> truthy (Some s) = Some s.
Proof.
  intros H. simpl. destruct (String.eqb_spec s ""); [contradiction|reflexivity].
Qed.



(** X6: the generated password is an adjective of the first word list, a noun
    of the second, the six digits of a number between 100000 and 999999 and
    an exclamation mark; it is between 13 and 21 characters long. *)
Theorem X6_generated_password_shape :
  forall (c : SCIMClient.t) (w : World),
  exists (adjective noun number : string) (w' : World),
    SCIMClient._generate_easy_password c w
    = (Return (adjective +:+ noun +:+ number +:+ "!"), w')
    /\ In adjective SCIMClient.adjectives
    /\ In noun SCIMClient.nouns
    /\ String.length number = 6%nat
    /\ PyStr.all PyStr.isdigit number = true
    /\ (13 <= String.length (adjective +:+ noun +:+ number +:+ "!") <= 21)%nat.
Proof.
  intros c w. unfold SCIMClient._generate_easy_password, bind, ret.
  destruct (random_choice_run SCIMClient.adjectives w)
    as (adjective & w1 & -> & Hadj & _); [discriminate|].
  destruct (random_choice_run SCIMClient.nouns w1)
    as (noun & w2 & -> & Hnoun & _); [discriminate|].
  destruct (random_randint_run 100000 999999 w2)
    as (number & w3 & -> & Hnum & _); [lia|].
  destruct (of_int_six_digits number Hnum) as [Hlen Hdigits].
  exists adjective, noun, (PyStr.of_int number), w3.
  split; [reflexivity|]. split; [exact Hadj|]. split; [exact Hnoun|].
  split; [exact Hlen|]. split; [exact Hdigits|].
  rewrite !string_length_app, Hlen.
  pose proof (words_checked
                (fun word => (3 <=? String.length word)%nat
                             && (String.length word <=? 6)%nat)
                SCIMClient.adjectives adjective eq_refl Hadj) as Ha.
  pose proof (words_checked
                (fun word => (3 <=? String.length word)%nat
                             && (String.length word <=? 8)%nat)
                SCIMClient.nouns noun eq_refl Hnoun) as Hn.
  apply andb_true_iff in Ha as [Ha1 Ha2]. apply andb_true_iff in Hn as [Hn1 Hn2].
  apply Nat.leb_le in Ha1, Ha2, Hn1, Hn2. simpl. lia.
Qed.

Lemma lstrip_replicate (c : ascii) (k : nat) (s : string) :
  PyStr.lstrip c (PyStr.replicate k c +:+ s) = PyStr.lstrip c s.
Proof.
  induction k as [|k IH]; simpl; [reflexivity|].
  rewrite Ascii.eqb_refl. exact IH.
Qed.

(** X7: leading slashes of the endpoint make no difference at all: with any
    number of them in front, [_make_request] behaves exactly as without. *)
Theorem X7_leading_slashes_ignored :
  forall (c : SCIMClient.t) (method endpoint : string) (payload : option json)
         (k : nat) (w : World),
    SCIMClient._make_request c method (PyStr.replicate k "/" +:+ endpoint) payload w
    = SCIMClient._make_request c method endpoint payload w.
Proof.
  intros c method endpoint payload k w. unfold SCIMClient._make_request.
  rewrite lstrip_replicate. reflexivity.
Qed.

(** ** Debug logging *)






(** X8: with debugging off, [_make_request] writes nothing to the log; and
    whatever the debug flag, a request the transport fails writes nothing
    either, since the log is written after the response has arrived. *)
Theorem X8_nothing_logged_without_debug :
  forall (c : SCIMClient.t) (method endpoint : string) (payload : option json)
         (w : World),
    (SCIMClient.debug c = false
     \/ exists e, transport_answer w (request_of c method endpoint payload) = Raise e) ->
    logged (snd (SCIMClient._make_request c method endpoint payload w)) = logged w.
Proof.
  intros c method endpoint payload w H.
  unfold SCIMClient._make_request. fold (request_of c method endpoint payload).
  unfold bind at 1. rewrite requests_request_issues.
  destruct (transport_answer w _) as [response|e] eqn:Hans; [|reflexivity].
  destruct H as [Hdebug|[e He]]; [|discriminate].
  unfold bind, SCIMClient._log_request_response. rewrite Hdebug. reflexivity.
Qed.

Lemma X8_witness :
  logged (snd (SCIMClient._make_request example_client "GET" "Users" None
                 bare_world)) = [].
Proof.
  apply (X8_nothing_logged_without_debug example_client "GET" "Users" None
           bare_world).
  left. reflexivity.
Defined.



(** ** Construction, more closely *)

(** X10: a non-empty constructor argument always wins over the environment,
    and the environment is used for exactly the arguments that are missing or
    empty: the client is built from the argument where there is one and from
    [SCIM_BASE_URL] / [SCIM_TOKEN] where there is not. *)
Theorem X10_arguments_take_precedence :
  forall (w : World) (b t eb et : string),
    b <> "" -> t <> "" -> eb <> "" -> et <> "" ->
    environ w !! "SCIM_BASE_URL" = Some eb ->
    environ w !! "SCIM_TOKEN" = Some et ->
    let built := fun bu tk => (Return (client_of bu tk (environ w !! "DEBUG")), w) in
    SCIMClient.__init__ (Some b) (Some t) w = built b t
    /\ SCIMClient.__init__ (Some b) None w = built b et
    /\ SCIMClient.__init__ None (Some t) w = built eb t
    /\ SCIMClient.__init__ None None w = built eb et
    /\ SCIMClient.__init__ (Some "") (Some "") w = built eb et.
Proof.
  intros w b t eb et Hb Ht Heb Het Henvb Henvt built. unfold built.
  rewrite !init_run, Henvb, Henvt. unfold py_or.
  rewrite !(truthy_nonempty b Hb), !(truthy_nonempty t Ht).
  simpl (truthy None). simpl (truthy (Some "")). cbv iota.
  rewrite !(truthy_nonempty eb Heb), !(truthy_nonempty et Het).
  repeat split.
Qed.

Lemma X10_witness :
  SCIMClient.__init__ (Some "https://other.example.com") None configured_world
  = (Return (client_of "https://other.example.com" "test-bearer-token-12345" None),
     configured_world).
Proof.
  apply (X10_arguments_take_precedence configured_world
           "https://other.example.com" "unused"
           "https://api.example.com/scim/v2/" "test-bearer-token-12345");
    solve [discriminate | reflexivity].
Defined.

(** X11: normalisation is a fixed point: building a client again from the
    base URL and token of a client just built gives that same client, as
    long as its base URL is not empty. *)
Theorem X11_reconstruction_is_stable :
  forall (w w' : World) (base_url token : option string) (c : SCIMClient.t),
    SCIMClient.__init__ base_url token w = (Return c, w') ->
    SCIMClient.base_url c <> "" ->
    SCIMClient.__init__ (Some (SCIMClient.base_url c)) (Some (SCIMClient.token c)) w
    = (Return c, w).
Proof.
  intros w w' base_url token c Hinit Hne.
  apply init_Return in Hinit as (b & t & Hb & Ht & -> & _).
  simpl in *. rewrite init_run. unfold py_or.
  rewrite !(truthy_nonempty _ Hne).
  assert (Htne : t <> "").
  { destruct (py_or token _) as [t0|]; [|discriminate]. simpl in Ht.
    destruct (String.eqb_spec t0 ""); [discriminate|]. congruence. }
  rewrite !(truthy_nonempty _ Htne).
  unfold client_of. rewrite (rstrip_fixed "/" _ (rstrip_endswith "/" b)).
  reflexivity.
Qed.

Lemma X11_witness :
  SCIMClient.__init__ (Some "https://api.example.com/scim/v2")
    (Some "test-bearer-token-12345") configured_world
  = (Return (client_of "https://api.example.com/scim/v2/"
                       "test-bearer-token-12345" None), configured_world).
Proof.
  apply (X11_reconstruction_is_stable configured_world configured_world None None
           (client_of "https://api.example.com/scim/v2/"
                      "test-bearer-token-12345" None));
    [reflexivity|discriminate].
Defined.




(** ** The range of the external id generator *)

Lemma index_of_lookup (a : ascii) (alphabet : list ascii) :
  In a alphabet ->
  alphabet !! index_of a alphabet = Some a
  /\ (index_of a alphabet < length alphabet)%nat.
Proof.
  induction alphabet as [|x rest IH]; simpl; [tauto|].
  intros Hin. destruct (Ascii.eqb_spec x a) as [->|Hne].
  - split; [reflexivity|lia].
  - destruct Hin as [Heq|Hin]; [contradiction|].
    destruct (IH Hin) as [Hl Hlt]. split; [exact Hl|lia].
Qed.

Lemma alphanumeric_in_alphabet (a : ascii) :
  PyStr.isalnum a = true -> In a alphanumerics.
Proof.
  intros H.
  assert (Hex : existsb (Ascii.eqb a) alphanumerics = true).
  { revert H. destruct a as [[] [] [] [] [] [] [] []]; vm_compute;
      intros H; solve [reflexivity | discriminate H]. }
  apply existsb_exists in Hex as (x & Hin & Heq).
  apply Ascii.eqb_eq in Heq. subst x. exact Hin.
Qed.

(** When the draws ahead spell [target], [random.choices] returns it. *)
Lemma random_choices_spelling (alphabet target : list ascii) (w : World) :
  Forall (fun a => In a alphabet) target ->
  (forall (i : nat) (a : ascii),
     target !! i = Some a ->
     entropy w (drawn w + i)%nat = index_of a alphabet) ->
  exists w',
    random_choices alphabet (length target) w = (Return target, w').
Proof.
  intros Hall. revert w.
  induction Hall as [|a rest Ha _ IH]; intros w Htape; simpl.
  - exists w. reflexivity.
  - unfold bind. unfold random_choice at 1. unfold bind, randbelow.
    destruct (index_of_lookup a alphabet Ha) as [Hlook Hlt].
    pose proof (Htape O a eq_refl) as H0. rewrite Nat.add_0_r in H0.
    cbn [fst snd]. rewrite H0, (Nat.mod_small _ _ Hlt), Hlook. unfold ret at 1.
    match goal with
    | |- context [random_choices alphabet (length rest) ?w1] =>
        destruct (IH w1) as (w' & Hrun)
    end.
    { intros i x Hi. simpl.
      replace (S (drawn w + i))%nat with (drawn w + S i)%nat by lia.
      apply Htape. exact Hi. }
    rewrite Hrun. exists w'. reflexivity.
Qed.

(** X13: the external id generator reaches every string its contract allows:
    for each string of twelve ASCII letters and digits there is a behaviour of
    the random source under which [_generate_external_id] returns it. *)
Theorem X13_every_external_id_can_be_generated :
  forall (c : SCIMClient.t) (w : World) (eid : string),
    String.length eid = 12%nat ->
    PyStr.all PyStr.isalnum eid = true ->
    exists tape : nat -> nat,
      fst (SCIMClient._generate_external_id c (with_entropy tape w)) = Return eid.
Proof.
  intros c w eid Hlen Hall.
  set (target := list_ascii_of_string eid).
  assert (Htarget : PyStr.of_chars target = eid)
    by apply string_of_list_ascii_of_string.
  assert (Hlen' : length target = 12%nat).
  { rewrite <- Htarget, of_chars_length in Hlen. exact Hlen. }
  assert (Hin : Forall (fun a => In a alphanumerics) target).
  { clear Hlen Hlen' Htarget. subst target.
    induction eid as [|a eid IH]; simpl in *; constructor.
    - apply andb_true_iff in Hall as [Ha _]. apply alphanumeric_in_alphabet, Ha.
    - apply andb_true_iff in Hall as [_ Hrest]. apply IH, Hrest. }
  exists (tape_spelling alphanumerics target (drawn w)).
  destruct (random_choices_spelling alphanumerics target
              (with_entropy (tape_spelling alphanumerics target (drawn w)) w) Hin)
    as (w' & Hrun).
  { intros i a Hi. simpl. unfold tape_spelling.
    replace (drawn w + i - drawn w)%nat with i by lia.
    rewrite (nth_lookup_Some _ _ _ _ Hi). reflexivity. }
  unfold SCIMClient._generate_external_id, bind.
  fold alphanumerics. rewrite <- Hlen', Hrun. simpl. f_equal. exact Htarget.
Qed.

Lemma X13_witness :
  exists tape : nat -> nat,
    fst (SCIMClient._generate_external_id example_client
           (with_entropy tape bare_world)) = Return "Zz9Aa0custom".
Proof.
  apply (X13_every_external_id_can_be_generated example_client bare_world
           "Zz9Aa0custom"); reflexivity.
Defined.

(** ** The dispatcher, more closely *)

Lemma process_response_run (response : Response) (w : World) :
  SCIMMCPServer._process_response response w
  = (Return (result_envelope response), w).
Proof.
  unfold SCIMMCPServer._process_response, response_json, result_envelope.
  run_monad. destruct (json_body response); reflexivity.
Qed.

Lemma bind_ret_l {A B : Type} (a : A) (k : A -> M B) : bind (ret a) k = k a.
Proof. reflexivity. Qed.

(** A client call followed by [_process_response]: one request, and the
    envelope of the response or the exception of the transport. *)
Lemma processed_call (m : M Response) (w : World) (req : Request) :
  issues m w req ->
  sent (snd (bind m SCIMMCPServer._process_response w)) = sent w ++ [req]
  /\ fst (bind m SCIMMCPServer._process_response w)
     = match transport_answer w req with
       | Return response => Return (result_envelope response)
       | Raise e => Raise e
       end.
Proof.
  unfold issues, bind. destruct (m w) as [[response|e] w1]; simpl.
  - intros [Hs <-]. rewrite process_response_run. split; [exact Hs|reflexivity].
  - intros [Hs <-]. split; [exact Hs|reflexivity].
Qed.

Ltac cases_of_tools Hin :=
  unfold SCIMMCPServer.handle_list_tools in Hin;
  repeat (destruct Hin as [<-|Hin]); [..|destruct Hin].

(** A listed tool called without one of its required properties raises the
    [KeyError] of the first one missing, before anything is sent. *)
Lemma execute_tool_missing (self : SCIMMCPServer.t) (c : SCIMClient.t)
    (tool : SCIMMCPServer.Tool) (arguments : option Args.t) (key : string)
    (w : World) :
  SCIMMCPServer.client self = Some c ->
  In tool SCIMMCPServer.handle_list_tools ->
  first_missing tool arguments = Some key ->
  SCIMMCPServer._execute_tool self (SCIMMCPServer.name tool)
    (default Args.empty arguments) w
  = (Raise (KeyError key), w).
Proof.
  intros Hclient Hin Hmiss. destruct self as [cl]. simpl in Hclient. subst cl.
  unfold first_missing in Hmiss.
  destruct (default Args.empty arguments)
    as [filter start_index count user_id email first_name last_name external_id
        password user_data group_id display_name group_data user_ids].
  cases_of_tools Hin; vm_compute in Hmiss;
    repeat match type of Hmiss with
           | context [match ?x with _ => _ end] => is_var x; destruct x
           end;
    try discriminate Hmiss;
    inversion Hmiss; subst key; reflexivity.
Qed.


Lemma ready_server_client (self : SCIMMCPServer.t) (w : World) (c : SCIMClient.t) :
  client_ready self w c ->
  forall w2, client_ready {| SCIMMCPServer.client := Some c |} w2 c.
Proof. intros _ w2. left. reflexivity. Qed.

(** X14: the only exception that ever leaves [handle_call_tool] is the
    configuration error of a first construction: if the handler raises, the
    dispatcher had no client, the exception is one of the two [ValueError]s of
    [SCIMClient.__init__], and the world is untouched.  With a client at hand
    or constructible, it returns a reply for every name and every arguments. *)
Theorem X14_handler_raises_only_configuration_errors :
  forall (self : SCIMMCPServer.t) (name : string) (arguments : option Args.t)
         (w : World),
    (forall (e : exn) (w' : World),
       SCIMMCPServer.handle_call_tool self name arguments w = (Raise e, w') ->
       SCIMMCPServer.client self = None
       /\ (e = base_url_error \/ e = token_error) /\ w' = w)
    /\ (forall c : SCIMClient.t,
          client_ready self w c ->
          exists reply w',
            SCIMMCPServer.handle_call_tool self name arguments w
            = (Return ({| SCIMMCPServer.client := Some c |}, reply), w')).
Proof.
  intros self name arguments w.
  assert (Hready : forall c, client_ready self w c ->
    exists reply w',
      SCIMMCPServer.handle_call_tool self name arguments w
      = (Return ({| SCIMMCPServer.client := Some c |}, reply), w')).
  { intros c Hc. rewrite (handle_call_tool_ready self c) by exact Hc.
    destruct (SCIMMCPServer._execute_tool _ name _ w) as [[result|e] w'];
      eexists _, _; reflexivity. }
  split; [|exact Hready].
  intros e w' Hraise.
  destruct (ready_or_unconfigured self w) as [[c Hc]|[Hnone [e0 Hinit]]].
  - destruct (Hready c Hc) as (reply & w2 & Hret). congruence.
  - rewrite (handle_call_tool_unready self name arguments w w e0 Hnone Hinit)
      in Hraise.
    inversion Hraise. subst e0 w'. split; [exact Hnone|]. split; [|reflexivity].
    rewrite init_run in Hinit.
    destruct (truthy (py_or None _)); [|inversion Hinit; left; reflexivity].
    destruct (truthy (py_or None _)); inversion Hinit. right. reflexivity.
Qed.

Lemma X14_witness :
  SCIMMCPServer.handle_call_tool SCIMMCPServer.__init__ "scim_get_user" None
    bare_world = (Raise base_url_error, bare_world)
  /\ SCIMMCPServer.client SCIMMCPServer.__init__ = None
  /\ exists reply w',
       SCIMMCPServer.handle_call_tool example_server "scim_get_user" None
         bare_world
       = (Return ({| SCIMMCPServer.client := Some example_client |}, reply), w').
Proof.
  destruct (X14_handler_raises_only_configuration_errors SCIMMCPServer.__init__
              "scim_get_user" None bare_world) as [Hraise _].
  destruct (X14_handler_raises_only_configuration_errors example_server
              "scim_get_user" None bare_world) as [_ Hreturn].
  split; [reflexivity|].
  split; [apply (Hraise base_url_error bare_world); reflexivity|].
  apply Hreturn. left. reflexivity.
Defined.

(** X15: the client is built once and kept: a call that returns leaves the
    dispatcher holding a client, the one it already had if it had one, and
    from then on no call can raise, whatever becomes of the environment. *)
Theorem X15_client_is_constructed_once :
  forall (self self' : SCIMMCPServer.t) (name : string)
         (arguments : option Args.t) (w w' : World)
         (reply : list SCIMMCPServer.TextContent),
    SCIMMCPServer.handle_call_tool self name arguments w
    = (Return (self', reply), w') ->
    exists c : SCIMClient.t,
      SCIMMCPServer.client self' = Some c
      /\ (forall c0, SCIMMCPServer.client self = Some c0 -> c0 = c)
      /\ forall (name2 : string) (arguments2 : option Args.t) (w2 : World),
         exists reply2 w2',
           SCIMMCPServer.handle_call_tool self' name2 arguments2 w2
           = (Return (self', reply2), w2').
Proof.
  intros self self' name arguments w w' reply Hcall.
  destruct (ready_or_unconfigured self w) as [[c Hc]|[Hnone [e Hinit]]].
  - rewrite (handle_call_tool_ready self c) in Hcall by exact Hc.
    assert (Hself : self' = {| SCIMMCPServer.client := Some c |}).
    { destruct (SCIMMCPServer._execute_tool _ name _ w) as [[result|e] w1];
        inversion Hcall; reflexivity. }
    subst self'. exists c. split; [reflexivity|]. split.
    + intros c0 Hc0. destruct Hc as [Hc|[Hc _]]; congruence.
    + intros name2 arguments2 w2.
      rewrite (handle_call_tool_ready _ c) by (left; reflexivity).
      destruct (SCIMMCPServer._execute_tool _ name2 _ w2) as [[result|e] w3];
        eexists _, _; reflexivity.
  - rewrite (handle_call_tool_unready self name arguments w w e Hnone Hinit)
      in Hcall.
    discriminate.
Qed.

Lemma X15_witness :
  exists c : SCIMClient.t,
    c = client_of "https://api.example.com/scim/v2/" "test-bearer-token-12345" None
    /\ exists reply2 w2',
         SCIMMCPServer.handle_call_tool {| SCIMMCPServer.client := Some c |}
           "scim_delete_user" None bare_world
         = (Return ({| SCIMMCPServer.client := Some c |}, reply2), w2').
Proof.
  destruct (X15_client_is_constructed_once SCIMMCPServer.__init__
              {| SCIMMCPServer.client :=
                   Some (client_of "https://api.example.com/scim/v2/"
                                   "test-bearer-token-12345" None) |}
              "scim_no_such_tool" None configured_world configured_world
              (error_reply "Unknown tool: scim_no_such_tool" "scim_no_such_tool"
                 None) eq_refl)
    as (c & Hc & _ & Hlater).
  exists c. split; [simpl in Hc; congruence|].
  simpl in Hc. inversion Hc. subst c.
  exact (Hlater "scim_delete_user" None bare_world).
Defined.

(** X16: every tool that [handle_list_tools] advertises enforces the
    [required] list of its own input schema: called without one of those
    properties, it answers with the error envelope naming the first missing
    one, in declared order, and sends nothing. *)
Theorem X16_required_properties_are_enforced :
  forall (self : SCIMMCPServer.t) (c : SCIMClient.t) (tool : SCIMMCPServer.Tool)
         (arguments : option Args.t) (key : string) (w : World),
    client_ready self w c ->
    In tool SCIMMCPServer.handle_list_tools ->
    first_missing tool arguments = Some key ->
    SCIMMCPServer.handle_call_tool self (SCIMMCPServer.name tool) arguments w
    = (Return ({| SCIMMCPServer.client := Some c |},
               error_reply ("'" +:+ key +:+ "'") (SCIMMCPServer.name tool)
                 arguments), w).
Proof.
  intros self c tool arguments key w Hready Hin Hmiss.
  rewrite (handle_call_tool_ready self c) by exact Hready.
  rewrite (execute_tool_missing {| SCIMMCPServer.client := Some c |} c tool
             arguments key w eq_refl Hin Hmiss).
  reflexivity.
Qed.


Lemma listed_tool_In (position : nat) :
  (position < 12)%nat -> In (listed_tool position) SCIMMCPServer.handle_list_tools.
Proof. intros H. apply nth_In. exact H. Qed.

Lemma X16_witness :
  SCIMMCPServer.handle_call_tool example_server "scim_update_group"
    (Some (only_group_id "g1")) bare_world
  = (Return (example_server,
             error_reply "'group_data'" "scim_update_group"
               (Some (only_group_id "g1"))), bare_world).
Proof.
  apply (X16_required_properties_are_enforced example_server example_client
           (listed_tool 8) (Some (only_group_id "g1")) "group_data" bare_world).
  - left. reflexivity.
  - apply listed_tool_In. lia.
  - reflexivity.
Defined.


Lemma handle_call_tool_ready_world (self : SCIMMCPServer.t) (c : SCIMClient.t)
    (name : string) (arguments : option Args.t) (w : World) :
  client_ready self w c ->
  snd (SCIMMCPServer.handle_call_tool self name arguments w)
  = snd (SCIMMCPServer._execute_tool {| SCIMMCPServer.client := Some c |} name
           (default Args.empty arguments) w).
Proof.
  intros Hready. rewrite (handle_call_tool_ready self c) by exact Hready.
  destruct (SCIMMCPServer._execute_tool _ name _ w) as [[result|e] w'];
    reflexivity.
Qed.



(** X19: the list tools fill in what the call leaves out: without
    [start_index] the request asks for index 1, without [count] for 100, a
    larger [count] is cut to 100, and without a filter (or with an empty
    one) no filter parameter is sent; a call with no arguments at all is
    [startIndex=1&count=100]. *)
Theorem X19_list_tools_defaults :
  forall (self : SCIMMCPServer.t) (c : SCIMClient.t) (arguments : option Args.t)
         (w : World),
    client_ready self w c ->
    truthy (Args.filter (default Args.empty arguments)) = None ->
    let query :=
      "startIndex="
      +:+ PyStr.of_int (default 1 (Args.start_index (default Args.empty arguments)))
      +:+ "&count="
      +:+ PyStr.of_int
            (Z.min (default 100 (Args.count (default Args.empty arguments))) 100) in
    let get := fun url : string =>
      {| method := "GET"; url := url; req_headers := SCIMClient.headers c;
         req_json := None; timeout := 30 |} in
    sent (snd (SCIMMCPServer.handle_call_tool self "scim_list_users" arguments w))
    = sent w ++ [get (SCIMClient.base_url c +:+ "/Users?" +:+ query)]
    /\ sent (snd (SCIMMCPServer.handle_call_tool self "scim_list_groups"
                    arguments w))
       = sent w ++ [get (SCIMClient.base_url c +:+ "/Groups?" +:+ query)].
Proof.
  intros self c arguments w Hready Hfilter query get.
  rewrite !(handle_call_tool_ready_world self c) by exact Hready.
  set (a := default Args.empty arguments) in *.
  split.
  - destruct (processed_call
                (SCIMClient.get_users c (default 1 (Args.start_index a))
                   (default 100 (Args.count a)) (Args.filter a)) w _
                (make_request_issues c _ _ _ w)) as [Hsent _].
    change (SCIMMCPServer._execute_tool {| SCIMMCPServer.client := Some c |}
              "scim_list_users" a w)
      with (bind (SCIMClient.get_users c (default 1 (Args.start_index a))
                    (default 100 (Args.count a)) (Args.filter a))
              SCIMMCPServer._process_response w).
    rewrite Hsent. unfold request_of, SCIMClient.list_params.
    rewrite Hfilter. reflexivity.
  - destruct (processed_call
                (SCIMClient.get_groups c (default 1 (Args.start_index a))
                   (default 100 (Args.count a)) (Args.filter a)) w _
                (make_request_issues c _ _ _ w)) as [Hsent _].
    change (SCIMMCPServer._execute_tool {| SCIMMCPServer.client := Some c |}
              "scim_list_groups" a w)
      with (bind (SCIMClient.get_groups c (default 1 (Args.start_index a))
                    (default 100 (Args.count a)) (Args.filter a))
              SCIMMCPServer._process_response w).
    rewrite Hsent. unfold request_of, SCIMClient.list_params.
    rewrite Hfilter. reflexivity.
Qed.

Lemma X19_witness :
  sent (snd (SCIMMCPServer.handle_call_tool example_server "scim_list_users" None
               bare_world))
  = [{| method := "GET";
        url := "https://api.example.com/scim/v2/Users?startIndex=1&count=100";
        req_headers := SCIMClient.headers example_client;
        req_json := None; timeout := 30 |}].
Proof.
  destruct (X19_list_tools_defaults example_server example_client None bare_world)
    as [Husers _]; [left; reflexivity|reflexivity|].
  rewrite Husers. vm_compute. reflexivity.
Defined.



Ltac dispatch_to_client :=
  unfold SCIMMCPServer._execute_tool;
  cbv [String.eqb Ascii.eqb Bool.eqb andb];
  unfold SCIMMCPServer.self_client, Args.subscript;
  cbn [SCIMMCPServer.client].

(** X21: the dispatcher hands its arguments to the client under the client's
    names and adds nothing: [scim_update_user] and [scim_update_group] PUT the
    given [user_data] / [group_data] as the whole body to the resource of the
    given id, and [scim_create_group] POSTs [display_name] as [displayName]
    and a supplied [external_id] as [externalId]. *)
Theorem X21_dispatcher_argument_mapping :
  forall (self : SCIMMCPServer.t) (c : SCIMClient.t) (arguments : option Args.t)
         (w : World),
    client_ready self w c ->
    let a := default Args.empty arguments in
    let sent_by := fun tool : string =>
      sent (snd (SCIMMCPServer.handle_call_tool self tool arguments w)) in
    (forall id data, Args.user_id a = Some id -> Args.user_data a = Some data ->
       sent_by "scim_update_user"
       = sent w ++ [resource_request c "PUT" "Users" id (Some data)])
    /\ (forall id data, Args.group_id a = Some id -> Args.group_data a = Some data ->
        sent_by "scim_update_group"
        = sent w ++ [resource_request c "PUT" "Groups" id (Some data)])
    /\ (forall display external,
          Args.display_name a = Some display ->
          Args.external_id a = Some external -> external <> "" ->
          sent_by "scim_create_group"
          = sent w ++
            [post c "Groups"
               (JObj
                  [("schemas",
                    JList [JStr "urn:ietf:params:scim:schemas:core:2.0:Group"]);
                   ("displayName", JStr display);
                   ("externalId", JStr external)])]).
Proof.
  intros self c arguments w Hready a sent_by. subst sent_by. cbv beta.
  rewrite !(handle_call_tool_ready_world self c) by exact Hready.
  fold a. split; [|split].
  - intros id data Hid Hdata. dispatch_to_client. rewrite Hid, Hdata.
    rewrite !bind_ret_l.
    exact (proj1 (processed_call (SCIMClient.update_user c id data) w _
                    (make_request_issues c _ _ _ w))).
  - intros id data Hid Hdata. dispatch_to_client. rewrite Hid, Hdata.
    rewrite !bind_ret_l.
    exact (proj1 (processed_call (SCIMClient.update_group c id data) w _
                    (make_request_issues c _ _ _ w))).
  - intros display external Hdisplay Hexternal Hne. dispatch_to_client.
    rewrite Hdisplay, Hexternal. rewrite !bind_ret_l.
    destruct (create_group_issues c display (Some external) w)
      as (eid & Hissues & Heid).
    rewrite (truthy_nonempty external Hne) in Heid. subst eid.
    exact (proj1 (processed_call (SCIMClient.create_group c display (Some external))
                    w _ Hissues)).
Qed.

Lemma X21_witness :
  sent (snd (SCIMMCPServer.handle_call_tool example_server "scim_update_group"
               (Some (group_update "g1" (JObj [("displayName", JStr "Admins")])))
               bare_world))
  = [resource_request example_client "PUT" "Groups" "g1"
       (Some (JObj [("displayName", JStr "Admins")]))].
Proof.
  destruct (X21_dispatcher_argument_mapping example_server example_client
              (Some (group_update "g1" (JObj [("displayName", JStr "Admins")])))
              bare_world) as (_ & Hgroup & _).
  - left. reflexivity.
  - apply (Hgroup "g1" (JObj [("displayName", JStr "Admins")])); reflexivity.
Defined.
